(** * auth_service: the gRPC authentication handlers

    A shallow embedding of [internal/handler/auth.go] (package [handler]) and
    of the earlier copy of the same package, with the properties of the
    credential and token paths proved over it.

    Go values are modelled as the code has them: a [(value, error)] return is
    a pair whose error component is an [option] ([None] is [nil]); the
    packages the handlers call into ([bcrypt], [database/sql], the JWT
    manager) are interfaces the handlers are parameterised by; [log.Printf],
    the database round trips and the token-manager calls are recorded, in
    order, in the trace of the world the handler runs in. *)

From Stdlib Require Import ZArith Lia Ascii.
From stdpp Require Import base option list strings pretty gmap.

Local Open Scope Z_scope.
Local Open Scope string_scope.

(** ** Go's [error] values *)

(** [errors.New] builds an [errorString]; [fmt.Errorf] with a [%w] verb builds
    a [wrapError] that keeps the formatted message and the wrapped error. *)
Inductive error : Type :=
| errorString (s : string)
| wrapError (msg : string) (err : error).

(** [err.Error()] *)
Definition Error (e : error) : string :=
  match e with
  | errorString s => s
  | wrapError msg _ => msg
  end.

(** [errors.Unwrap] *)
Definition Unwrap (e : error) : option error :=
  match e with
  | errorString _ => None
  | wrapError _ err => Some err
  end.

(** [fmt.Errorf(prefix + "%w", err)]: every format string of the package ends
    in its single [%w] verb. *)
Definition Errorf_w (prefix : string) (err : error) : error :=
  wrapError (prefix +:+ Error err) err.

#[global] Instance error_eq_dec : EqDecision error.
Proof. solve_decision. Defined.

(** The outcome of a call into a package whose Go signature is
    [(T, error)]: the value, or the error. *)
Inductive Result (A : Type) : Type :=
| Ok (a : A)
| Err (e : error).
Arguments Ok {A} a.
Arguments Err {A} e.

(** ** Request context and gRPC metadata *)

(** What the handlers read from a [context.Context]: the incoming gRPC
    metadata ([metadata.MD] is a [map[string][]string]), when there is one, and
    [ctx.Err()], which the database driver honours. *)
Record Context : Type := {
  incomingMD : option (gmap string (list string));
  ctxErr : option error
}.

Definition Background : Context :=
  {| incomingMD := None; ctxErr := None |}.

(** [metadata.FromIncomingContext]: the [(md, ok)] pair as an option. *)
Definition FromIncomingContext (ctx : Context) : option (gmap string (list string)) :=
  incomingMD ctx.

(** [md[key]]: a missing key reads as the nil slice. *)
Definition mdGet (md : gmap string (list string)) (key : string) : list string :=
  default [] (md !! key).

(** ** Protocol messages ([proto/auth.proto]) *)

Record LoginRequest : Type := { Username : string; Password : string }.
Record LoginResponse : Type := { AccessToken : string }.
Record GetUserProfileRequest : Type := { ReqUserId : string }.
Record GetUserProfileResponse : Type := { UserId : string; RespUsername : string }.

(** ** [database/sql] *)

(** A [*sql.Row]: the error deferred until [Scan], or the columns of the
    first row of the result. Every column the handlers read is scanned into a
    Go [string]. *)
Inductive Row : Type :=
| RowErr (e : error)
| RowCols (cols : list string).

Record DB : Type := {
  QueryRowContext : Context -> string -> list string -> Row
}.

(** [db.QueryRow] is [QueryRowContext] under [context.Background()]. *)
Definition QueryRow (db : DB) (query : string) (args : list string) : Row :=
  QueryRowContext db Background query args.

Definition errScanArity (cols dest : nat) : error :=
  errorString ("sql: expected " +:+ pretty cols +:+
               " destination arguments in Scan, not " +:+ pretty dest).

(** [row.Scan(&a)]: the destination keeps its zero value on an error. *)
Definition Scan1 (r : Row) : string * option error :=
  match r with
  | RowErr e => ("", Some e)
  | RowCols [a] => (a, None)
  | RowCols cols => ("", Some (errScanArity (length cols) 1))
  end.

(** [row.Scan(&a, &b)] *)
Definition Scan2 (r : Row) : string * string * option error :=
  match r with
  | RowErr e => ("", "", Some e)
  | RowCols [a; b] => (a, b, None)
  | RowCols cols => ("", "", Some (errScanArity (length cols) 2))
  end.

(** ** [golang.org/x/crypto/bcrypt] *)

(** The two entry points the handlers use. [GenerateFromPassword] draws its
    salt from [crypto/rand]; the outcome of that read is its first argument. *)
Record Bcrypt : Type := {
  GenerateFromPassword : Result (list Byte.byte) -> list Byte.byte -> Z -> Result (list Byte.byte);
  CompareHashAndPassword : list Byte.byte -> list Byte.byte -> option error
}.

(** [bcrypt.DefaultCost] *)
Definition DefaultCost : Z := 10.

(** ** [github.com/golang-jwt/jwt/v5] *)

(** A decoded claim value (an [interface{}]); numeric claims carry whole
    seconds. *)
Inductive any : Type :=
| AString (s : string)
| ANumber (n : Z)
| ABool (b : bool)
| ANil.

(** [jwt.Claims] is an interface; [jwt.MapClaims] is the dynamic type the
    handlers assert, [StructClaims] stands for every other implementation. *)
Inductive ClaimsT : Type :=
| MapClaims (m : gmap string any)
| StructClaims.

(** The two fields of [jwt.Token] the handlers read. *)
Record Token : Type := { Claims : ClaimsT; Valid : bool }.

(** [claims, ok := c.(jwt.MapClaims)]: the comma-ok assertion leaves the nil
    map in [claims] when it fails. *)
Definition asMapClaims (c : ClaimsT) : gmap string any * bool :=
  match c with
  | MapClaims m => (m, true)
  | StructClaims => (∅, false)
  end.

(** [s, ok := claims[key].(string)]: a missing key reads as nil, which is no
    string; [s] is then the empty string. *)
Definition claimString (m : gmap string any) (key : string) : string * bool :=
  match m !! key with
  | Some (AString s) => (s, true)
  | _ => ("", false)
  end.

(** Modelled from the spec: the interface of [auth.JWTManager]
    ([internal/auth/jwt_manager.go] is not among the sources). [Generate]
    returns a token or fails; [Verify] returns the parsed token (the claims)
    or a typed failure. Both read the clock, passed as the first argument in
    Unix seconds. *)
Record JWTManager : Type := {
  Generate : Z -> string -> Result string;
  Verify : Z -> string -> Result Token
}.

(** ** The world a handler runs in *)

Inductive event : Type :=
| LogPrintf (line : string)
| DbQuery (query : string) (args : list string)
| JwtGenerate (userID : string)
| JwtVerify (tokenString : string).

Record World : Type := { now : Z; trace : list event }.

Definition M (A : Type) : Type := World -> A * World.

Definition ret {A} (a : A) : M A := fun w => (a, w).

Definition bind {A B} (m : M A) (k : A -> M B) : M B :=
  fun w => let (a, w') := m w in k a w'.

Notation "'let*' x ':=' c 'in' k" := (bind c (fun x => k))
  (at level 10, x name, c at level 200, k at level 200, only parsing).

Definition emit (e : event) : M unit :=
  fun w => (tt, {| now := now w; trace := (trace w ++ [e])%list |}).

Definition clock : M Z := fun w => (now w, w).

(** The value a handler returns and the events it added to the trace. *)
Definition returned {A} (m : M A) (w : World) : A := fst (m w).
Definition emitted {A} (m : M A) (w : World) : list event :=
  drop (length (trace w)) (trace (snd (m w))).

(** [log.Printf]; the logger's timestamp prefix is left out. *)
Definition logPrintf (line : string) : M unit := emit (LogPrintf line).

(** A round trip to the database and the two calls into the token manager,
    each leaving its mark in the trace. *)
Definition queryRowContext (db : DB) (ctx : Context) (query : string)
    (args : list string) : M Row :=
  let* _ := emit (DbQuery query args) in
  ret (QueryRowContext db ctx query args).

Definition queryRow (db : DB) (query : string) (args : list string) : M Row :=
  let* _ := emit (DbQuery query args) in
  ret (QueryRow db query args).

Definition jwtGenerate (m : JWTManager) (userID : string) : M (Result string) :=
  let* t := clock in
  let* _ := emit (JwtGenerate userID) in
  ret (Generate m t userID).

Definition jwtVerify (m : JWTManager) (tokenString : string) : M (Result Token) :=
  let* t := clock in
  let* _ := emit (JwtVerify tokenString) in
  ret (Verify m t tokenString).

(** What a gRPC method hands back: the [(response, error)] pair of its
    [return] statement, or a run-time panic. *)
Inductive Reply (A : Type) : Type :=
| Return (resp : option A) (err : option error)
| Panic (msg : string).
Arguments Return {A} resp err.
Arguments Panic {A} msg.

Definition nilDereference : string :=
  "runtime error: invalid memory address or nil pointer dereference".

(** The SQL text is shared by both copies of the package. *)
Definition selectCredentials : string :=
  "SELECT id, password FROM users WHERE username=$1".
Definition selectUsername : string :=
  "SELECT username FROM users WHERE id=$1".

(** [AuthHandler], declared with the same two dependencies in both copies
    (the embedded [UnimplementedAuthServiceServer] carries no state). *)
Record AuthHandler : Type := { db : DB; jwtManager : JWTManager }.

(** ** Package [handler], [internal/handler/auth.go] *)

Module Handler.

Definition ErrInvalidCredentials : error := errorString "invalid username or password".
Definition ErrInvalidToken : error := errorString "invalid or expired token".
Definition ErrMissingMetadata : error := errorString "missing metadata".
Definition ErrNoAuthToken : error := errorString "authorization token not provided".
Definition ErrInvalidTokenClaims : error := errorString "invalid token claims".

Definition NewAuthHandler (db : DB) (jwtManager : JWTManager) : AuthHandler :=
  {| db := db; jwtManager := jwtManager |}.

Section Package.
Variable bcrypt : Bcrypt.

Definition hashPassword (rnd : Result (list Byte.byte)) (password : string)
    : string * option error :=
  match GenerateFromPassword bcrypt rnd (String.list_byte_of_string password) DefaultCost with
  | Err err => ("", Some (Errorf_w "failed to hash password: " err))
  | Ok hashedPassword => (String.string_of_list_byte hashedPassword, None)
  end.

Definition checkPassword (hashedPassword password : string) : option error :=
  match CompareHashAndPassword bcrypt (String.list_byte_of_string hashedPassword)
          (String.list_byte_of_string password) with
  | Some _ => Some ErrInvalidCredentials
  | None => None
  end.

Definition Login (h : AuthHandler) (ctx : Context) (req : LoginRequest)
    : M (Reply LoginResponse) :=
  let* row := queryRowContext (db h) ctx selectCredentials [Username req] in
  let '(userID, hashedPassword, err) := Scan2 row in
  match err with
  | Some err =>
      let* _ := logPrintf ("Login failed for user " +:+ Username req +:+ ": " +:+ Error err) in
      ret (Return None (Some ErrInvalidCredentials))
  | None =>
      match checkPassword hashedPassword (Password req) with
      | Some err => ret (Return None (Some err))
      | None =>
          let* generated := jwtGenerate (jwtManager h) userID in
          match generated with
          | Err err =>
              let* _ := logPrintf ("Failed to generate token for user " +:+ userID
                                   +:+ ": " +:+ Error err) in
              ret (Return None (Some (Errorf_w "failed to generate token: " err)))
          | Ok token => ret (Return (Some {| AccessToken := token |}) None)
          end
      end
  end.

Definition validateToken (h : AuthHandler) (tokenString : string)
    : M (option Token * option error) :=
  let* verified := jwtVerify (jwtManager h) tokenString in
  match verified with
  | Err _ => ret (None, Some ErrInvalidToken)
  | Ok token => ret (Some token, None)
  end.

Definition extractTokenFromMetadata (ctx : Context) : string * option error :=
  match FromIncomingContext ctx with
  | None => ("", Some ErrMissingMetadata)
  | Some md =>
      let tokens := mdGet md "authorization" in
      if (length tokens =? 0)%nat then ("", Some ErrNoAuthToken)
      else (default "" (tokens !! 0%nat), None)
  end.

Definition GetUserProfile (h : AuthHandler) (ctx : Context)
    (req : GetUserProfileRequest) : M (Reply GetUserProfileResponse) :=
  let '(tokenString, err) := extractTokenFromMetadata ctx in
  match err with
  | Some err => ret (Return None (Some err))
  | None =>
      let* validated := validateToken h tokenString in
      let '(token, err) := validated in
      match err with
      | Some err => ret (Return None (Some err))
      | None =>
          match token with
          | None => ret (Panic nilDereference)
          | Some token =>
              let '(claims, ok) := asMapClaims (Claims token) in
              if negb ok || negb (Valid token)
              then ret (Return None (Some ErrInvalidTokenClaims))
              else
                let '(userID, ok) := claimString claims "user_id" in
                if negb ok then ret (Return None (Some ErrInvalidTokenClaims))
                else
                  let* row := queryRowContext (db h) ctx selectUsername [userID] in
                  let '(username, err) := Scan1 row in
                  match err with
                  | Some err =>
                      ret (Return None
                             (Some (Errorf_w "failed to retrieve user profile: " err)))
                  | None =>
                      ret (Return (Some {| UserId := userID; RespUsername := username |})
                             None)
                  end
          end
      end
  end.

End Package.
End Handler.

(** ** The second copy of package [handler]

    The repository holds an earlier copy of the same file. Its [Login] reads
    the database without the request context, logs nothing, wraps the
    database error, and its [checkPassword] builds its own error. Its
    [GetUserProfile] reads the metadata in line, builds each error where it
    is returned, and its [validateToken] wraps the failure of the token
    manager instead of replacing it. *)

Module HandlerCopy.

Section Package.
Variable bcrypt : Bcrypt.

Definition checkPassword (hashedPassword password : string) : option error :=
  match CompareHashAndPassword bcrypt (String.list_byte_of_string hashedPassword)
          (String.list_byte_of_string password) with
  | Some _ => Some (errorString "invalid credentials")
  | None => None
  end.

Definition Login (h : AuthHandler) (ctx : Context) (req : LoginRequest)
    : M (Reply LoginResponse) :=
  let* row := queryRow (db h) selectCredentials [Username req] in
  let '(userID, hashedPassword, err) := Scan2 row in
  match err with
  | Some err => ret (Return None (Some (Errorf_w "invalid username or password: " err)))
  | None =>
      match checkPassword hashedPassword (Password req) with
      | Some err => ret (Return None (Some err))
      | None =>
          let* generated := jwtGenerate (jwtManager h) userID in
          match generated with
          | Err err => ret (Return None (Some (Errorf_w "failed to generate token: " err)))
          | Ok token => ret (Return (Some {| AccessToken := token |}) None)
          end
      end
  end.

Definition validateToken (h : AuthHandler) (tokenString : string)
    : M (option Token * option error) :=
  let* verified := jwtVerify (jwtManager h) tokenString in
  match verified with
  | Err err => ret (None, Some (Errorf_w "invalid or expired token: " err))
  | Ok token => ret (Some token, None)
  end.

Definition GetUserProfile (h : AuthHandler) (ctx : Context)
    (req : GetUserProfileRequest) : M (Reply GetUserProfileResponse) :=
  match FromIncomingContext ctx with
  | None => ret (Return None (Some (errorString "missing metadata")))
  | Some md =>
      let tokens := mdGet md "authorization" in
      if (length tokens =? 0)%nat
      then ret (Return None (Some (errorString "authorization token not provided")))
      else
        let* validated := validateToken h (default "" (tokens !! 0%nat)) in
        let '(token, err) := validated in
        match err with
        | Some err => ret (Return None (Some err))
        | None =>
            match token with
            | None => ret (Panic nilDereference)
            | Some token =>
                let '(claims, ok) := asMapClaims (Claims token) in
                if negb ok || negb (Valid token)
                then ret (Return None (Some (errorString "invalid token claims")))
                else
                  let '(userID, ok) := claimString claims "user_id" in
                  if negb ok
                  then ret (Return None
                              (Some (errorString "user_id claim not found in token")))
                  else
                    let* row := queryRow (db h) selectUsername [userID] in
                    let '(username, err) := Scan1 row in
                    match err with
                    | Some err =>
                        ret (Return None
                               (Some (Errorf_w "failed to get user profile: " err)))
                    | None =>
                        ret (Return (Some {| UserId := userID; RespUsername := username |})
                               None)
                    end
            end
        end
  end.

End Package.
End HandlerCopy.

(** ** The token manager *)

(** Modelled from the spec: the token manager behind [auth.JWTManager]
    ([internal/auth/jwt_manager.go] is not among the sources). It holds one
    signing secret and one validity duration. [Generate] builds the claim set
    (subject, [issued_at = now], [expires_at = now + validity]), signs it and
    serialises; it fails only when signing fails. [Verify] parses the
    serialised form, checks the signature against the secret, then checks
    [expires_at > now]: [TokenInvalid] when the parse or the signature fails,
    [TokenExpired] when the signature is valid and the time check fails. The
    subject travels under the claim key [user_id], the key [GetUserProfile]
    reads. Signing and the wire format are parameters. *)
Module TokenManager.

Record ClaimSet : Type := { subject_id : string; issued_at : Z; expires_at : Z }.

Definition ErrTokenInvalid : error := errorString "TokenInvalid".
Definition ErrTokenExpired : error := errorString "TokenExpired".

Record Codec : Type := {
  sign : string -> ClaimSet -> Result string;
  serialize : ClaimSet -> string -> string;
  parse : string -> option (ClaimSet * string)
}.

Record Config : Type := { secret : string; validity : Z }.

Section Manager.
Variable codec : Codec.
Variable cfg : Config.

Definition toMapClaims (cs : ClaimSet) : gmap string any :=
  {[ "user_id" := AString (subject_id cs);
     "iat" := ANumber (issued_at cs);
     "exp" := ANumber (expires_at cs) ]}.

(** Modelled from the spec: [Generate(subject_id)], with [issued_at = now] and
    [expires_at = now + validity_duration]; it fails only when signing
    fails. *)
Definition Generate (now : Z) (subject : string) : Result string :=
  let cs := {| subject_id := subject; issued_at := now;
               expires_at := now + validity cfg |} in
  match sign codec (secret cfg) cs with
  | Err e => Err e
  | Ok signature => Ok (serialize codec cs signature)
  end.

(** Modelled from the spec: [Verify(token)]: parse, then signature, then
    [expires_at > now]. *)
Definition Verify (now : Z) (token : string) : Result Token :=
  match parse codec token with
  | None => Err ErrTokenInvalid
  | Some (cs, signature) =>
      match sign codec (secret cfg) cs with
      | Err _ => Err ErrTokenInvalid
      | Ok expected =>
          if negb (String.eqb signature expected) then Err ErrTokenInvalid
          else if expires_at cs >? now
               then Ok {| Claims := MapClaims (toMapClaims cs); Valid := true |}
               else Err ErrTokenExpired
      end
  end.

Definition manager : JWTManager :=
  Build_JWTManager Generate Verify.

End Manager.
End TokenManager.

(** ** In-memory stand-ins

    Small executable implementations of the three interfaces, used to run the
    handlers on concrete requests. *)
Module InMemory.

(** *** A users table *)

Record UserRow : Type := { id : string; username : string; password : string }.

(** [sql.ErrNoRows] *)
Definition ErrNoRows : error := errorString "sql: no rows in result set".

(** A database over a fixed users table; [fault], when set, is the error every
    round trip fails with (a lost connection, say). A cancelled context fails
    the query with [ctx.Err()]. *)
Definition memDB (users : list UserRow) (fault : option error) : DB :=
  {| QueryRowContext := fun ctx query args =>
       match ctxErr ctx, fault with
       | Some e, _ => RowErr e
       | None, Some e => RowErr e
       | None, None =>
           match args with
           | [arg] =>
               if String.eqb query selectCredentials then
                 match find (fun r => String.eqb (username r) arg) users with
                 | Some r => RowCols [id r; password r]
                 | None => RowErr ErrNoRows
                 end
               else if String.eqb query selectUsername then
                 match find (fun r => String.eqb (id r) arg) users with
                 | Some r => RowCols [username r]
                 | None => RowErr ErrNoRows
                 end
               else RowErr (errorString "pq: syntax error")
           | _ => RowErr (errorString "sql: wrong number of arguments")
           end
       end |}.

(** *** A transparent stand-in for bcrypt

    The "hash" is the salt followed by the password: it keeps the interface
    (salted, fails without entropy, rejects short hashes and other passwords)
    and nothing of the cryptography. *)
Definition saltLen : nat := 16.

Definition ErrMismatchedHashAndPassword : error :=
  errorString "crypto/bcrypt: hashedPassword is not the hash of the given password".
Definition ErrHashTooShort : error :=
  errorString "crypto/bcrypt: hashedSecret too short to be a bcrypted password".

Definition bytes_eqb (a b : list Byte.byte) : bool :=
  String.eqb (String.string_of_list_byte a) (String.string_of_list_byte b).

Definition clearBcrypt : Bcrypt :=
  {| GenerateFromPassword := fun rnd password cost =>
       match rnd with
       | Err e => Err e
       | Ok salt => Ok (take saltLen (salt ++ replicate saltLen Byte.x00) ++ password)%list
       end;
     CompareHashAndPassword := fun hashedPassword password =>
       if (length hashedPassword <? saltLen)%nat then Some ErrHashTooShort
       else if bytes_eqb (drop saltLen hashedPassword) password then None
       else Some ErrMismatchedHashAndPassword |}.

(** *** A stand-in with bcrypt's handling of the key

    As [golang.org/x/crypto/bcrypt] does, it refuses to generate from a
    password over 72 bytes ([ErrPasswordTooLong]), and it reads the password
    with a NUL byte appended, cyclically, over the 72 bytes of the Blowfish
    key schedule. The "hash" is the salt followed by those 72 key bytes: the
    key handling of the package and nothing of its cipher. *)
Definition ErrPasswordTooLong : error :=
  errorString "bcrypt: password length exceeds 72 bytes".

Definition keyLen : nat := 72.

(** The first [n] bytes of [key] repeated without end, [cur] being what is
    left of the current pass. *)
Fixpoint keyStream (n : nat) (key cur : list Byte.byte) : list Byte.byte :=
  match n with
  | O => []
  | S n' =>
      match cur with
      | b :: rest => b :: keyStream n' key rest
      | [] =>
          match key with
          | b :: rest => b :: keyStream n' key rest
          | [] => []
          end
      end
  end.

Definition scheduleKey (password : list Byte.byte) : list Byte.byte :=
  keyStream keyLen (password ++ [Byte.x00])%list (password ++ [Byte.x00])%list.

Definition keyedBcrypt : Bcrypt :=
  {| GenerateFromPassword := fun rnd password cost =>
       if (keyLen <? length password)%nat then Err ErrPasswordTooLong
       else match rnd with
            | Err e => Err e
            | Ok salt =>
                Ok (take saltLen (salt ++ replicate saltLen Byte.x00)
                      ++ scheduleKey password)%list
            end;
     CompareHashAndPassword := fun hashedPassword password =>
       if (length hashedPassword <? saltLen)%nat then Some ErrHashTooShort
       else if bytes_eqb (drop saltLen hashedPassword) (scheduleKey password) then None
       else Some ErrMismatchedHashAndPassword |}.

(** The password "a", and "a" followed by a NUL byte and another "a". *)
Definition shortPassword : string := "a".
Definition otherPassword : string :=
  String.string_of_list_byte [Byte.x61; Byte.x00; Byte.x61].

(** Passwords of 72 and of 73 bytes. *)
Definition password72 : string := String.string_of_list_byte (replicate 72 Byte.x61).
Definition password73 : string := String.string_of_list_byte (replicate 73 Byte.x61).

(** *** A readable wire format for tokens

    [subject.iat.exp.signature] with decimal times; the "signature" is the
    secret followed by the signed fields. *)
Definition digit (a : Ascii.ascii) : option Z :=
  let n := Z.of_nat (Ascii.nat_of_ascii a) in
  if ((48 <=? n)%Z && (n <=? 57)%Z)%bool then Some (n - 48)%Z else None.

Fixpoint atoi_go (acc : Z) (s : string) : option Z :=
  match s with
  | EmptyString => Some acc
  | String a s' =>
      match digit a with
      | Some d => atoi_go (acc * 10 + d) s'
      | None => None
      end
  end.

Definition atoi (s : string) : option Z :=
  match s with
  | EmptyString => None
  | _ => atoi_go 0 s
  end.

Fixpoint splitDot (s : string) : list string :=
  match s with
  | EmptyString => [EmptyString]
  | String a s' =>
      if Ascii.eqb a "."%char then EmptyString :: splitDot s'
      else match splitDot s' with
           | x :: xs => String a x :: xs
           | [] => [String a EmptyString]
           end
  end.

Definition payload (cs : TokenManager.ClaimSet) : string :=
  TokenManager.subject_id cs +:+ "." +:+ pretty (TokenManager.issued_at cs)
    +:+ "." +:+ pretty (TokenManager.expires_at cs).

Definition dotCodec : TokenManager.Codec :=
  {| TokenManager.sign := fun secret cs =>
       if String.eqb secret "" then Err (errorString "key is of invalid type")
       else Ok (secret +:+ "/" +:+ TokenManager.subject_id cs
                  +:+ "/" +:+ pretty (TokenManager.issued_at cs)
                  +:+ "/" +:+ pretty (TokenManager.expires_at cs));
     TokenManager.serialize := fun cs signature => payload cs +:+ "." +:+ signature;
     TokenManager.parse := fun token =>
       match splitDot token with
       | [sub; iat; exp; signature] =>
           match atoi iat, atoi exp with
           | Some i, Some e =>
               Some ({| TokenManager.subject_id := sub;
                        TokenManager.issued_at := i;
                        TokenManager.expires_at := e |}, signature)
           | _, _ => None
           end
       | _ => None
       end |}.

(** *** One service instance *)

Definition salt0 : Result (list Byte.byte) := Ok (replicate saltLen Byte.x2a).

Definition aliceHash : string :=
  fst (Handler.hashPassword clearBcrypt salt0 "correct-pw").

Definition users : list UserRow :=
  [ {| id := "u-1"; username := "alice"; password := aliceHash |} ].

Definition day : Z := 86400.

Definition tokens : JWTManager :=
  TokenManager.manager dotCodec {| TokenManager.secret := "k"; TokenManager.validity := day |}.

Definition service : AuthHandler := Handler.NewAuthHandler (memDB users None) tokens.

Definition world0 : World := {| now := 1000; trace := [] |}.

Definition withToken (token : string) : Context :=
  {| incomingMD := Some {[ "authorization" := [token] ]}; ctxErr := None |}.

Definition noRequest : GetUserProfileRequest := {| ReqUserId := "" |}.

(** The token [Login] issues to alice at time 1000, valid until 87400, and
    the same token with another subject under the old signature. *)
Definition aliceToken : string := "u-1.1000.87400.k/u-1/1000/87400".
Definition forgedToken : string := "u-2.1000.87400.k/u-1/1000/87400".

Definition afterExpiry : World := {| now := 90000; trace := [] |}.

(** A token manager that answers every call the same way, and a service
    around it. *)
Definition answering (generated : Result string) (verified : Result Token) : JWTManager :=
  {| Generate := fun _ _ => generated; Verify := fun _ _ => verified |}.

Definition serviceAnswering (generated : Result string) (verified : Result Token)
    : AuthHandler :=
  Handler.NewAuthHandler (memDB users None) (answering generated verified).

(** The same service over a database that fails every round trip with [e]. *)
Definition serviceFailing (e : error) : AuthHandler :=
  Handler.NewAuthHandler (memDB users (Some e)) tokens.

(** A verified token whose [user_id] is a number. *)
Definition numericSubject : Token :=
  {| Claims := MapClaims {[ "user_id" := ANumber 42 ]}; Valid := true |}.

End InMemory.

(** ** Notions the properties are stated with *)

(** The subject [GetUserProfile] reads off a verified token: the string under
    [user_id] of a valid token with map claims, if there is one. *)
Definition subjectOf (token : Token) : option string :=
  let '(claims, ok) := asMapClaims (Claims token) in
  if negb ok || negb (Valid token) then None
  else let '(userID, ok) := claimString claims "user_id" in
       if negb ok then None else Some userID.

(** The token passes both assertions of [GetUserProfile]: map claims, marked
    valid, with the string [userID] under [user_id]. *)
Definition carriesSubject (token : Token) (userID : string) : Prop :=
  exists m, Claims token = MapClaims m /\ Valid token = true
            /\ m !! "user_id" = Some (AString userID).

(** A reply is either a response with a nil error, or no response with an
    error. *)
Definition responseXorError {A} (r : Reply A) : Prop :=
  (exists resp, r = Return (Some resp) None) \/ (exists e, r = Return None (Some e)).

(** The runs of [Login]: each constructor is one path through the function,
    with what decides it, the reply, and the events of the call in order. *)
Inductive LoginRun (bcrypt : Bcrypt) (h : AuthHandler) (ctx : Context)
    (req : LoginRequest) (w : World) : Reply LoginResponse -> list event -> Prop :=
| LookupFailed (e : error) :
    snd (Scan2 (QueryRowContext (db h) ctx selectCredentials [Username req])) = Some e ->
    LoginRun bcrypt h ctx req w
      (Return None (Some Handler.ErrInvalidCredentials))
      [DbQuery selectCredentials [Username req];
       LogPrintf ("Login failed for user " +:+ Username req +:+ ": " +:+ Error e)]
| PasswordRejected (userID hashed : string) (e : error) :
    QueryRowContext (db h) ctx selectCredentials [Username req]
    = RowCols [userID; hashed] ->
    CompareHashAndPassword bcrypt (String.list_byte_of_string hashed)
      (String.list_byte_of_string (Password req)) = Some e ->
    LoginRun bcrypt h ctx req w
      (Return None (Some Handler.ErrInvalidCredentials))
      [DbQuery selectCredentials [Username req]]
| SigningFailed (userID hashed : string) (e : error) :
    QueryRowContext (db h) ctx selectCredentials [Username req]
    = RowCols [userID; hashed] ->
    CompareHashAndPassword bcrypt (String.list_byte_of_string hashed)
      (String.list_byte_of_string (Password req)) = None ->
    Generate (jwtManager h) (now w) userID = Err e ->
    LoginRun bcrypt h ctx req w
      (Return None (Some (Errorf_w "failed to generate token: " e)))
      [DbQuery selectCredentials [Username req];
       JwtGenerate userID;
       LogPrintf ("Failed to generate token for user " +:+ userID +:+ ": " +:+ Error e)]
| TokenIssued (userID hashed token : string) :
    QueryRowContext (db h) ctx selectCredentials [Username req]
    = RowCols [userID; hashed] ->
    CompareHashAndPassword bcrypt (String.list_byte_of_string hashed)
      (String.list_byte_of_string (Password req)) = None ->
    Generate (jwtManager h) (now w) userID = Ok token ->
    LoginRun bcrypt h ctx req w
      (Return (Some {| AccessToken := token |}) None)
      [DbQuery selectCredentials [Username req]; JwtGenerate userID].

(** The runs of [GetUserProfile] in [auth.go], path by path. *)
Inductive ProfileRun (h : AuthHandler) (ctx : Context) (w : World)
    : Reply GetUserProfileResponse -> list event -> Prop :=
| NoMetadata :
    incomingMD ctx = None ->
    ProfileRun h ctx w (Return None (Some Handler.ErrMissingMetadata)) []
| NoToken (md : gmap string (list string)) :
    incomingMD ctx = Some md -> mdGet md "authorization" = [] ->
    ProfileRun h ctx w (Return None (Some Handler.ErrNoAuthToken)) []
| VerifyFailed (md : gmap string (list string)) (t : string) (rest : list string)
    (e : error) :
    incomingMD ctx = Some md -> md !! "authorization" = Some (t :: rest) ->
    Verify (jwtManager h) (now w) t = Err e ->
    ProfileRun h ctx w (Return None (Some Handler.ErrInvalidToken)) [JwtVerify t]
| ClaimsRejected (md : gmap string (list string)) (t : string) (rest : list string)
    (token : Token) :
    incomingMD ctx = Some md -> md !! "authorization" = Some (t :: rest) ->
    Verify (jwtManager h) (now w) t = Ok token ->
    (forall userID, ~ carriesSubject token userID) ->
    ProfileRun h ctx w (Return None (Some Handler.ErrInvalidTokenClaims)) [JwtVerify t]
| ProfileLookupFailed (md : gmap string (list string)) (t : string) (rest : list string)
    (token : Token) (userID zero : string) (e : error) :
    incomingMD ctx = Some md -> md !! "authorization" = Some (t :: rest) ->
    Verify (jwtManager h) (now w) t = Ok token ->
    carriesSubject token userID ->
    Scan1 (QueryRowContext (db h) ctx selectUsername [userID]) = (zero, Some e) ->
    ProfileRun h ctx w
      (Return None (Some (Errorf_w "failed to retrieve user profile: " e)))
      [JwtVerify t; DbQuery selectUsername [userID]]
| ProfileFound (md : gmap string (list string)) (t : string) (rest : list string)
    (token : Token) (userID username : string) :
    incomingMD ctx = Some md -> md !! "authorization" = Some (t :: rest) ->
    Verify (jwtManager h) (now w) t = Ok token ->
    carriesSubject token userID ->
    QueryRowContext (db h) ctx selectUsername [userID] = RowCols [username] ->
    ProfileRun h ctx w
      (Return (Some {| UserId := userID; RespUsername := username |}) None)
      [JwtVerify t; DbQuery selectUsername [userID]].

(** The runs of the copy's [GetUserProfile], path by path (replies only). *)
Inductive ProfileCopyRun (h : AuthHandler) (ctx : Context) (w : World)
    : Reply GetUserProfileResponse -> Prop :=
| CopyNoMetadata :
    incomingMD ctx = None ->
    ProfileCopyRun h ctx w (Return None (Some (errorString "missing metadata")))
| CopyNoToken (md : gmap string (list string)) :
    incomingMD ctx = Some md -> mdGet md "authorization" = [] ->
    ProfileCopyRun h ctx w
      (Return None (Some (errorString "authorization token not provided")))
| CopyVerifyFailed (md : gmap string (list string)) (t : string) (rest : list string)
    (e : error) :
    incomingMD ctx = Some md -> md !! "authorization" = Some (t :: rest) ->
    Verify (jwtManager h) (now w) t = Err e ->
    ProfileCopyRun h ctx w
      (Return None (Some (Errorf_w "invalid or expired token: " e)))
| CopyClaimsInvalid (md : gmap string (list string)) (t : string) (rest : list string)
    (token : Token) :
    incomingMD ctx = Some md -> md !! "authorization" = Some (t :: rest) ->
    Verify (jwtManager h) (now w) t = Ok token ->
    (forall m, Claims token <> MapClaims m) \/ Valid token = false ->
    ProfileCopyRun h ctx w (Return None (Some (errorString "invalid token claims")))
| CopyNoSubject (md : gmap string (list string)) (t : string) (rest : list string)
    (token : Token) (m : gmap string any) :
    incomingMD ctx = Some md -> md !! "authorization" = Some (t :: rest) ->
    Verify (jwtManager h) (now w) t = Ok token ->
    Claims token = MapClaims m -> Valid token = true ->
    (forall s, m !! "user_id" <> Some (AString s)) ->
    ProfileCopyRun h ctx w
      (Return None (Some (errorString "user_id claim not found in token")))
| CopyLookupFailed (md : gmap string (list string)) (t : string) (rest : list string)
    (token : Token) (userID zero : string) (e : error) :
    incomingMD ctx = Some md -> md !! "authorization" = Some (t :: rest) ->
    Verify (jwtManager h) (now w) t = Ok token ->
    carriesSubject token userID ->
    Scan1 (QueryRow (db h) selectUsername [userID]) = (zero, Some e) ->
    ProfileCopyRun h ctx w
      (Return None (Some (Errorf_w "failed to get user profile: " e)))
| CopyProfileFound (md : gmap string (list string)) (t : string) (rest : list string)
    (token : Token) (userID username : string) :
    incomingMD ctx = Some md -> md !! "authorization" = Some (t :: rest) ->
    Verify (jwtManager h) (now w) t = Ok token ->
    carriesSubject token userID ->
    QueryRow (db h) selectUsername [userID] = RowCols [username] ->
    ProfileCopyRun h ctx w
      (Return (Some {| UserId := userID; RespUsername := username |}) None).

(** The part of bcrypt's contract the check of a stored hash rests on: a hash
    accepts the password it was generated from. *)
Definition acceptsOwnPassword (bcrypt : Bcrypt) : Prop :=
  forall rnd password cost hashed,
    GenerateFromPassword bcrypt rnd password cost = Ok hashed ->
    CompareHashAndPassword bcrypt hashed password = None.

(** * Properties *)

(** ** Running a handler *)

Ltac run :=
  unfold returned, emitted, Handler.Login, HandlerCopy.Login, Handler.GetUserProfile,
    Handler.validateToken, queryRowContext, queryRow, jwtGenerate, jwtVerify,
    logPrintf, emit, clock, bind, ret; simpl.

Lemma bytes_inj (a b : string) :
  String.list_byte_of_string a = String.list_byte_of_string b -> a = b.
Proof.
  intros E.
  rewrite <- (String.string_of_list_byte_of_string a),
          <- (String.string_of_list_byte_of_string b).
  now rewrite E.
Qed.

Lemma checkPassword_cases (bcrypt : Bcrypt) (hashed password : string) :
  (CompareHashAndPassword bcrypt (String.list_byte_of_string hashed)
     (String.list_byte_of_string password) = None
   /\ Handler.checkPassword bcrypt hashed password = None)
  \/ ((exists e, CompareHashAndPassword bcrypt (String.list_byte_of_string hashed)
                   (String.list_byte_of_string password) = Some e)
      /\ Handler.checkPassword bcrypt hashed password = Some Handler.ErrInvalidCredentials).
Proof.
  unfold Handler.checkPassword.
  destruct (CompareHashAndPassword bcrypt _ _) as [e|]; [right | left]; eauto.
Qed.

(** *** What [Login] returns, path by path *)

Section LoginPaths.
Variable bcrypt : Bcrypt.
Variables (h : AuthHandler) (ctx : Context) (req : LoginRequest) (w : World).

Local Abbreviation row := (QueryRowContext (db h) ctx selectCredentials [Username req]).

Lemma Login_lookup_failed (e : error) :
  snd (Scan2 row) = Some e ->
  Handler.Login bcrypt h ctx req w =
    (Return None (Some Handler.ErrInvalidCredentials),
     {| now := now w;
        trace := trace w ++ [DbQuery selectCredentials [Username req];
                             LogPrintf ("Login failed for user " +:+ Username req
                                        +:+ ": " +:+ Error e)] |}).
Proof.
  intros E. run.
  destruct (Scan2 row) as [[uid hp] err]. simpl in E. subst err. simpl.
  now rewrite <- app_assoc.
Qed.

Lemma Login_password_rejected (userID hashed : string) :
  Scan2 row = (userID, hashed, None) ->
  Handler.checkPassword bcrypt hashed (Password req) <> None ->
  Handler.Login bcrypt h ctx req w =
    (Return None (Some Handler.ErrInvalidCredentials),
     {| now := now w; trace := trace w ++ [DbQuery selectCredentials [Username req]] |}).
Proof.
  intros E C. run. rewrite E.
  destruct (checkPassword_cases bcrypt hashed (Password req)) as [[_ K]|[_ K]];
    [congruence | now rewrite K].
Qed.

Lemma Login_signing_failed (userID hashed : string) (e : error) :
  Scan2 row = (userID, hashed, None) ->
  Handler.checkPassword bcrypt hashed (Password req) = None ->
  Generate (jwtManager h) (now w) userID = Err e ->
  Handler.Login bcrypt h ctx req w =
    (Return None (Some (Errorf_w "failed to generate token: " e)),
     {| now := now w;
        trace := trace w ++ [DbQuery selectCredentials [Username req];
                             JwtGenerate userID;
                             LogPrintf ("Failed to generate token for user " +:+ userID
                                        +:+ ": " +:+ Error e)] |}).
Proof.
  intros E C G. run. rewrite E, C. simpl. rewrite G. simpl.
  now rewrite <- !app_assoc.
Qed.

Lemma Login_token_issued (userID hashed token : string) :
  Scan2 row = (userID, hashed, None) ->
  Handler.checkPassword bcrypt hashed (Password req) = None ->
  Generate (jwtManager h) (now w) userID = Ok token ->
  Handler.Login bcrypt h ctx req w =
    (Return (Some {| AccessToken := token |}) None,
     {| now := now w;
        trace := trace w ++ [DbQuery selectCredentials [Username req];
                             JwtGenerate userID] |}).
Proof.
  intros E C G. run. rewrite E, C. simpl. rewrite G. simpl.
  now rewrite <- !app_assoc.
Qed.

End LoginPaths.

(** *** What [GetUserProfile] returns, path by path *)

Section ProfilePaths.
Variables (h : AuthHandler) (ctx : Context) (req : GetUserProfileRequest) (w : World).

Lemma GetUserProfile_no_token (t : string) (e : error) :
  Handler.extractTokenFromMetadata ctx = (t, Some e) ->
  Handler.GetUserProfile h ctx req w = (Return None (Some e), w).
Proof. intros E. run. now rewrite E. Qed.

Lemma GetUserProfile_verify_failed (tokenString : string) (e : error) :
  Handler.extractTokenFromMetadata ctx = (tokenString, None) ->
  Verify (jwtManager h) (now w) tokenString = Err e ->
  Handler.GetUserProfile h ctx req w =
    (Return None (Some Handler.ErrInvalidToken),
     {| now := now w; trace := trace w ++ [JwtVerify tokenString] |}).
Proof. intros E V. run. rewrite E. simpl. now rewrite V. Qed.

Lemma GetUserProfile_claims_rejected (tokenString : string) (token : Token) :
  Handler.extractTokenFromMetadata ctx = (tokenString, None) ->
  Verify (jwtManager h) (now w) tokenString = Ok token ->
  subjectOf token = None ->
  Handler.GetUserProfile h ctx req w =
    (Return None (Some Handler.ErrInvalidTokenClaims),
     {| now := now w; trace := trace w ++ [JwtVerify tokenString] |}).
Proof.
  intros E V S. run. rewrite E. simpl. rewrite V. simpl.
  unfold subjectOf in S.
  destruct (asMapClaims (Claims token)) as [claims ok].
  destruct (negb ok || negb (Valid token)); [reflexivity|].
  destruct (claimString claims "user_id") as [userID ok'].
  destruct (negb ok'); [reflexivity | discriminate].
Qed.

Lemma GetUserProfile_lookup (tokenString userID : string) (token : Token) :
  Handler.extractTokenFromMetadata ctx = (tokenString, None) ->
  Verify (jwtManager h) (now w) tokenString = Ok token ->
  subjectOf token = Some userID ->
  Handler.GetUserProfile h ctx req w =
    (match Scan1 (QueryRowContext (db h) ctx selectUsername [userID]) with
     | (_, Some e) => Return None (Some (Errorf_w "failed to retrieve user profile: " e))
     | (username, None) => Return (Some {| UserId := userID; RespUsername := username |}) None
     end,
     {| now := now w;
        trace := trace w ++ [JwtVerify tokenString; DbQuery selectUsername [userID]] |}).
Proof.
  intros E V S. run. rewrite E. simpl. rewrite V. simpl.
  unfold subjectOf in S.
  destruct (asMapClaims (Claims token)) as [claims ok].
  destruct (negb ok || negb (Valid token)); [discriminate|].
  destruct (claimString claims "user_id") as [uid ok'].
  destruct (negb ok'); [discriminate|]. injection S as ->.
  destruct (Scan1 _) as [username [e|]]; simpl; rewrite <- ?app_assoc; reflexivity.
Qed.

End ProfilePaths.

Lemma extractToken_cases (ctx : Context) :
  (incomingMD ctx = None
   /\ Handler.extractTokenFromMetadata ctx = ("", Some Handler.ErrMissingMetadata))
  \/ (exists md, incomingMD ctx = Some md /\ mdGet md "authorization" = []
        /\ Handler.extractTokenFromMetadata ctx = ("", Some Handler.ErrNoAuthToken))
  \/ (exists md t rest, incomingMD ctx = Some md /\ md !! "authorization" = Some (t :: rest)
        /\ Handler.extractTokenFromMetadata ctx = (t, None)).
Proof.
  unfold Handler.extractTokenFromMetadata, FromIncomingContext, mdGet.
  destruct (incomingMD ctx) as [md|]; [right | left; auto].
  destruct (md !! "authorization") as [[|t rest]|] eqn:L; simpl.
  - left. exists md. rewrite L. repeat split; reflexivity.
  - right. exists md, t, rest. repeat split; solve [exact L | reflexivity].
  - left. exists md. rewrite L. repeat split; reflexivity.
Qed.

(** The service at work: alice logs in, and her token resolves to her
    profile. *)
Example login_then_profile :
  returned (Handler.Login InMemory.clearBcrypt InMemory.service Background
              {| Username := "alice"; Password := "correct-pw" |}) InMemory.world0
  = Return (Some {| AccessToken := InMemory.aliceToken |}) None
  /\ returned (Handler.GetUserProfile InMemory.service
                 (InMemory.withToken InMemory.aliceToken) InMemory.noRequest)
       InMemory.world0
     = Return (Some {| UserId := "u-1"; RespUsername := "alice" |}) None.
Proof. split; vm_compute; reflexivity. Qed.

(** ** No partial success *)

(** C9. For every request, context, store and world, [Login] and
    [GetUserProfile] each return either a response with a nil error or a nil
    response with an error: never both, never neither, and no panic. *)
Theorem no_partial_success (bcrypt : Bcrypt) (h : AuthHandler) (ctx : Context) (w : World) :
  (forall req, responseXorError (returned (Handler.Login bcrypt h ctx req) w))
  /\ (forall req, responseXorError (returned (Handler.GetUserProfile h ctx req) w)).
Proof.
  split; intros req; unfold returned.
  - destruct (Scan2 (QueryRowContext (db h) ctx selectCredentials [Username req]))
      as [[userID hashed] [e|]] eqn:S.
    + rewrite (Login_lookup_failed bcrypt h ctx req w e) by now rewrite S.
      right. eauto.
    + destruct (Handler.checkPassword bcrypt hashed (Password req)) as [e|] eqn:C.
      * rewrite (Login_password_rejected bcrypt h ctx req w userID hashed S) by congruence.
        right. eauto.
      * destruct (Generate (jwtManager h) (now w) userID) as [token|e] eqn:G.
        -- rewrite (Login_token_issued bcrypt h ctx req w userID hashed token S C G).
           left. eauto.
        -- rewrite (Login_signing_failed bcrypt h ctx req w userID hashed e S C G).
           right. eauto.
  - destruct (extractToken_cases ctx)
      as [[_ E]|[(md & _ & _ & E)|(md & t & rest & _ & _ & E)]].
    + rewrite (GetUserProfile_no_token h ctx req w _ _ E). right. eauto.
    + rewrite (GetUserProfile_no_token h ctx req w _ _ E). right. eauto.
    + destruct (Verify (jwtManager h) (now w) t) as [token|e] eqn:V.
      * destruct (subjectOf token) as [userID|] eqn:S.
        -- rewrite (GetUserProfile_lookup h ctx req w t userID token E V S). simpl.
           destruct (Scan1 _) as [username [e|]]; [right | left]; eauto.
        -- rewrite (GetUserProfile_claims_rejected h ctx req w t token E V S).
           right. eauto.
      * rewrite (GetUserProfile_verify_failed h ctx req w t e E V). right. eauto.
Qed.

(** ** Credential failures *)

(** C5. Whatever the stored hash (well formed or not) and the password,
    [checkPassword] returns nil or [ErrInvalidCredentials]; any two failing
    calls return the same value, whichever error bcrypt reported. *)
Theorem checkPassword_single_error (bcrypt : Bcrypt) (hashed password : string) :
  (Handler.checkPassword bcrypt hashed password = None
   \/ Handler.checkPassword bcrypt hashed password = Some Handler.ErrInvalidCredentials)
  /\ (forall e, CompareHashAndPassword bcrypt (String.list_byte_of_string hashed)
                  (String.list_byte_of_string password) = Some e ->
                Handler.checkPassword bcrypt hashed password
                = Some Handler.ErrInvalidCredentials)
  /\ (forall hashed' password',
        Handler.checkPassword bcrypt hashed password <> None ->
        Handler.checkPassword bcrypt hashed' password' <> None ->
        Handler.checkPassword bcrypt hashed password
        = Handler.checkPassword bcrypt hashed' password').
Proof.
  split; [|split].
  - destruct (checkPassword_cases bcrypt hashed password) as [[_ K]|[_ K]]; auto.
  - intros e C. unfold Handler.checkPassword. now rewrite C.
  - intros hashed' password' F F'.
    destruct (checkPassword_cases bcrypt hashed password) as [[_ K]|[_ K]];
      [congruence|].
    destruct (checkPassword_cases bcrypt hashed' password') as [[_ K']|[_ K']];
      congruence.
Qed.

(** A stored hash too short to be a bcrypt hash and a wrong password against
    alice's hash fail alike. *)
Lemma checkPassword_single_error_witness :
  CompareHashAndPassword InMemory.clearBcrypt
    (String.list_byte_of_string "not-a-hash") (String.list_byte_of_string "pw")
  = Some InMemory.ErrHashTooShort
  /\ CompareHashAndPassword InMemory.clearBcrypt
       (String.list_byte_of_string InMemory.aliceHash) (String.list_byte_of_string "wrong-pw")
     = Some InMemory.ErrMismatchedHashAndPassword
  /\ Handler.checkPassword InMemory.clearBcrypt "not-a-hash" "pw"
     = Handler.checkPassword InMemory.clearBcrypt InMemory.aliceHash "wrong-pw".
Proof.
  split; [reflexivity | split; [reflexivity|]].
  apply (checkPassword_single_error InMemory.clearBcrypt "not-a-hash" "pw");
    vm_compute; discriminate.
Defined.

(** C2. A login whose username the store does not know and a login whose
    password does not match the stored hash return the same value: no
    response and [ErrInvalidCredentials]. *)
Theorem login_failures_indistinguishable (bcrypt : Bcrypt) (h : AuthHandler)
    (ctx ctx' : Context) (absent wrong : LoginRequest) (w w' : World)
    (e : error) (userID hashed : string) :
  QueryRowContext (db h) ctx selectCredentials [Username absent] = RowErr e ->
  QueryRowContext (db h) ctx' selectCredentials [Username wrong] = RowCols [userID; hashed] ->
  CompareHashAndPassword bcrypt (String.list_byte_of_string hashed)
    (String.list_byte_of_string (Password wrong)) <> None ->
  returned (Handler.Login bcrypt h ctx absent) w
  = returned (Handler.Login bcrypt h ctx' wrong) w'
  /\ returned (Handler.Login bcrypt h ctx absent) w
     = Return None (Some Handler.ErrInvalidCredentials).
Proof.
  intros A P C. unfold returned.
  rewrite (Login_lookup_failed bcrypt h ctx absent w e) by now rewrite A.
  rewrite (Login_password_rejected bcrypt h ctx' wrong w' userID hashed).
  - split; reflexivity.
  - now rewrite P.
  - destruct (checkPassword_cases bcrypt hashed (Password wrong)) as [[K _]|[_ K]];
      congruence.
Qed.

Lemma login_failures_indistinguishable_witness :
  returned (Handler.Login InMemory.clearBcrypt InMemory.service Background
              {| Username := "ghost"; Password := "anything" |}) InMemory.world0
  = returned (Handler.Login InMemory.clearBcrypt InMemory.service Background
                {| Username := "alice"; Password := "wrong-pw" |}) InMemory.world0
  /\ returned (Handler.Login InMemory.clearBcrypt InMemory.service Background
                 {| Username := "ghost"; Password := "anything" |}) InMemory.world0
     = Return None (Some Handler.ErrInvalidCredentials).
Proof.
  apply (login_failures_indistinguishable InMemory.clearBcrypt InMemory.service
           Background Background _ _ InMemory.world0 InMemory.world0
           InMemory.ErrNoRows "u-1" InMemory.aliceHash).
  - reflexivity.
  - reflexivity.
  - vm_compute. discriminate.
Defined.

(** ** Token extraction and verification *)

Lemma emitted_app {A} (m : M A) (w : World) (a : A) (t : Z) (l : list event) :
  m w = (a, {| now := t; trace := trace w ++ l |}) -> emitted m w = l.
Proof. intros E. unfold emitted. rewrite E. simpl. apply drop_app_length. Qed.

(** C7, as the code has it. Without incoming metadata [GetUserProfile] fails
    with [ErrMissingMetadata]; with metadata that holds no value under
    [authorization] (no entry, or an entry with no values) it fails with
    [ErrNoAuthToken]; in both cases the world is untouched: nothing is
    verified, nothing is looked up. A first value, whatever it is, goes to the
    token manager as it stands. *)
Theorem missing_token_rejected (h : AuthHandler) (ctx : Context)
    (req : GetUserProfileRequest) (w : World) :
  (incomingMD ctx = None ->
   Handler.GetUserProfile h ctx req w = (Return None (Some Handler.ErrMissingMetadata), w))
  /\ (forall md, incomingMD ctx = Some md -> mdGet md "authorization" = [] ->
      Handler.GetUserProfile h ctx req w = (Return None (Some Handler.ErrNoAuthToken), w))
  /\ (forall md t rest, incomingMD ctx = Some md ->
      md !! "authorization" = Some (t :: rest) ->
      exists more, emitted (Handler.GetUserProfile h ctx req) w = JwtVerify t :: more).
Proof.
  split; [|split].
  - intros N. apply GetUserProfile_no_token with (t := "").
    unfold Handler.extractTokenFromMetadata, FromIncomingContext. now rewrite N.
  - intros md P L. apply GetUserProfile_no_token with (t := "").
    unfold Handler.extractTokenFromMetadata, FromIncomingContext. now rewrite P, L.
  - intros md t rest P L.
    assert (E : Handler.extractTokenFromMetadata ctx = (t, None)).
    { unfold Handler.extractTokenFromMetadata, FromIncomingContext, mdGet.
      now rewrite P, L. }
    destruct (Verify (jwtManager h) (now w) t) as [token|e] eqn:V.
    + destruct (subjectOf token) as [userID|] eqn:S.
      * eexists. eapply emitted_app.
        apply (GetUserProfile_lookup h ctx req w t userID token E V S).
      * eexists. eapply emitted_app.
        apply (GetUserProfile_claims_rejected h ctx req w t token E V S).
    + eexists. eapply emitted_app.
      apply (GetUserProfile_verify_failed h ctx req w t e E V).
Qed.

Lemma missing_token_rejected_witness :
  Handler.GetUserProfile InMemory.service Background InMemory.noRequest InMemory.world0
  = (Return None (Some Handler.ErrMissingMetadata), InMemory.world0)
  /\ Handler.GetUserProfile InMemory.service {| incomingMD := Some ∅; ctxErr := None |}
       InMemory.noRequest InMemory.world0
     = (Return None (Some Handler.ErrNoAuthToken), InMemory.world0).
Proof.
  split.
  - apply (missing_token_rejected InMemory.service Background InMemory.noRequest
             InMemory.world0). reflexivity.
  - apply (missing_token_rejected InMemory.service {| incomingMD := Some ∅; ctxErr := None |}
             InMemory.noRequest InMemory.world0) with (md := ∅); reflexivity.
Defined.

(** C7 as stated fails when the metadata carries an empty token value: the
    empty string is handed to the token manager, and the failure is the one of
    an invalid token, not [ErrNoAuthToken]. *)
Lemma empty_token_is_verified :
  incomingMD (InMemory.withToken "") = Some {[ "authorization" := [""] ]}
  /\ Handler.GetUserProfile InMemory.service (InMemory.withToken "") InMemory.noRequest
       InMemory.world0
     = (Return None (Some Handler.ErrInvalidToken),
        {| now := 1000; trace := [JwtVerify ""] |})
  /\ Handler.ErrInvalidToken <> Handler.ErrNoAuthToken.
Proof. split; [reflexivity | split; [vm_compute; reflexivity | discriminate]]. Qed.

Lemma subjectOf_none (token : Token) :
  (forall m, Claims token = MapClaims m ->
     m !! "user_id" = None
     \/ exists v, m !! "user_id" = Some v /\ forall s, v <> AString s) ->
  subjectOf token = None.
Proof.
  intros H. unfold subjectOf.
  destruct (Claims token) as [m|] eqn:C; simpl; [|reflexivity].
  destruct (negb (Valid token)); [reflexivity|].
  unfold claimString.
  destruct (H m eq_refl) as [->|(v & -> & Hv)]; [reflexivity|].
  destruct v; try reflexivity. now destruct (Hv s).
Qed.

(** C6. When the verified token has no [user_id] claim, or has one that is
    not a string, [GetUserProfile] fails with [ErrInvalidTokenClaims], and the
    only event of the call is the verification: no profile is looked up, under
    an empty subject or any other. *)
Theorem malformed_claims_rejected (h : AuthHandler) (ctx : Context)
    (req : GetUserProfileRequest) (w : World) (tokenString : string) (token : Token) :
  Handler.extractTokenFromMetadata ctx = (tokenString, None) ->
  Verify (jwtManager h) (now w) tokenString = Ok token ->
  (forall m, Claims token = MapClaims m ->
     m !! "user_id" = None
     \/ exists v, m !! "user_id" = Some v /\ forall s, v <> AString s) ->
  returned (Handler.GetUserProfile h ctx req) w
  = Return None (Some Handler.ErrInvalidTokenClaims)
  /\ emitted (Handler.GetUserProfile h ctx req) w = [JwtVerify tokenString].
Proof.
  intros E V H.
  pose proof (GetUserProfile_claims_rejected h ctx req w tokenString token E V
                (subjectOf_none token H)) as R.
  split.
  - unfold returned. now rewrite R.
  - now apply emitted_app in R.
Qed.

Lemma malformed_claims_rejected_witness :
  returned (Handler.GetUserProfile
              (InMemory.serviceAnswering (Ok "t") (Ok InMemory.numericSubject))
              (InMemory.withToken "t") InMemory.noRequest) InMemory.world0
  = Return None (Some Handler.ErrInvalidTokenClaims)
  /\ emitted (Handler.GetUserProfile
                (InMemory.serviceAnswering (Ok "t") (Ok InMemory.numericSubject))
                (InMemory.withToken "t") InMemory.noRequest) InMemory.world0
     = [JwtVerify "t"].
Proof.
  apply (malformed_claims_rejected _ _ _ _ "t" InMemory.numericSubject).
  - reflexivity.
  - reflexivity.
  - intros m C. injection C as <-. right. exists (ANumber 42).
    split; [reflexivity | discriminate].
Defined.

(** C1, as the code has it. Whatever failure [Verify] reports for the token
    (expired, bad signature, unparsable), [GetUserProfile] returns the one
    [ErrInvalidToken]; the failure of the token manager is dropped, so the
    caller cannot tell an expired token from an invalid one. *)
Theorem verify_failure_collapsed (h : AuthHandler) (ctx : Context)
    (req : GetUserProfileRequest) (w : World) (tokenString : string) (e : error) :
  Handler.extractTokenFromMetadata ctx = (tokenString, None) ->
  Verify (jwtManager h) (now w) tokenString = Err e ->
  returned (Handler.GetUserProfile h ctx req) w = Return None (Some Handler.ErrInvalidToken).
Proof.
  intros E V. unfold returned.
  now rewrite (GetUserProfile_verify_failed h ctx req w tokenString e E V).
Qed.

Lemma verify_failure_collapsed_witness :
  returned (Handler.GetUserProfile InMemory.service (InMemory.withToken InMemory.aliceToken)
              InMemory.noRequest) InMemory.afterExpiry
  = Return None (Some Handler.ErrInvalidToken).
Proof.
  apply (verify_failure_collapsed _ _ _ _ InMemory.aliceToken TokenManager.ErrTokenExpired).
  - reflexivity.
  - vm_compute. reflexivity.
Defined.

(** C1 as stated fails: alice's own token, presented after its expiry, makes
    [Verify] report [TokenExpired], a token with a bad signature makes it
    report [TokenInvalid], and [GetUserProfile] returns the same error for
    both, which is neither of the two. *)
Lemma expired_and_invalid_not_told_apart :
  Verify (jwtManager InMemory.service) (now InMemory.afterExpiry) InMemory.aliceToken
  = Err TokenManager.ErrTokenExpired
  /\ Verify (jwtManager InMemory.service) (now InMemory.afterExpiry) InMemory.forgedToken
     = Err TokenManager.ErrTokenInvalid
  /\ returned (Handler.GetUserProfile InMemory.service
                 (InMemory.withToken InMemory.aliceToken) InMemory.noRequest)
       InMemory.afterExpiry
     = returned (Handler.GetUserProfile InMemory.service
                   (InMemory.withToken InMemory.forgedToken) InMemory.noRequest)
         InMemory.afterExpiry
  /\ returned (Handler.GetUserProfile InMemory.service
                 (InMemory.withToken InMemory.aliceToken) InMemory.noRequest)
       InMemory.afterExpiry
     <> Return None (Some TokenManager.ErrTokenExpired).
Proof.
  repeat split; try (vm_compute; reflexivity).
  vm_compute. discriminate.
Qed.

(** ** Internal failures *)

(** C8, as the code has it. A failed credentials lookup in [Login] reaches the
    caller as [ErrInvalidCredentials] whatever the database error; its text
    goes to the log only. A signing failure in [Login] and a failed profile
    lookup in [GetUserProfile] reach the caller wrapped under a fixed prefix:
    the message ends in the text of the internal error and the error itself
    is kept for [errors.Unwrap]. *)
Theorem internal_failures_reported (bcrypt : Bcrypt) (h : AuthHandler) (ctx : Context)
    (w : World) :
  (forall req e,
     QueryRowContext (db h) ctx selectCredentials [Username req] = RowErr e ->
     returned (Handler.Login bcrypt h ctx req) w
     = Return None (Some Handler.ErrInvalidCredentials)
     /\ emitted (Handler.Login bcrypt h ctx req) w
        = [DbQuery selectCredentials [Username req];
           LogPrintf ("Login failed for user " +:+ Username req +:+ ": " +:+ Error e)])
  /\ (forall req userID hashed e,
        QueryRowContext (db h) ctx selectCredentials [Username req]
        = RowCols [userID; hashed] ->
        Handler.checkPassword bcrypt hashed (Password req) = None ->
        Generate (jwtManager h) (now w) userID = Err e ->
        returned (Handler.Login bcrypt h ctx req) w
        = Return None (Some (wrapError ("failed to generate token: " +:+ Error e) e)))
  /\ (forall req tokenString token userID e,
        Handler.extractTokenFromMetadata ctx = (tokenString, None) ->
        Verify (jwtManager h) (now w) tokenString = Ok token ->
        subjectOf token = Some userID ->
        QueryRowContext (db h) ctx selectUsername [userID] = RowErr e ->
        returned (Handler.GetUserProfile h ctx req) w
        = Return None (Some (wrapError ("failed to retrieve user profile: " +:+ Error e) e))).
Proof.
  split; [|split].
  - intros req e Q.
    pose proof (Login_lookup_failed bcrypt h ctx req w e) as R.
    rewrite Q in R. specialize (R eq_refl). split.
    + unfold returned. now rewrite R.
    + now apply emitted_app in R.
  - intros req userID hashed e Q C G. unfold returned.
    rewrite (Login_signing_failed bcrypt h ctx req w userID hashed e); auto.
    now rewrite Q.
  - intros req tokenString token userID e E V S Q. unfold returned.
    rewrite (GetUserProfile_lookup h ctx req w tokenString userID token E V S).
    now rewrite Q.
Qed.

Lemma internal_failures_reported_witness :
  returned (Handler.Login InMemory.clearBcrypt
              (InMemory.serviceFailing (errorString "driver: bad connection")) Background
              {| Username := "alice"; Password := "correct-pw" |}) InMemory.world0
  = Return None (Some Handler.ErrInvalidCredentials)
  /\ returned (Handler.Login InMemory.clearBcrypt
                 (InMemory.serviceAnswering (Err (errorString "key is invalid"))
                    (Err TokenManager.ErrTokenInvalid)) Background
                 {| Username := "alice"; Password := "correct-pw" |}) InMemory.world0
     = Return None (Some (wrapError "failed to generate token: key is invalid"
                            (errorString "key is invalid")))
  /\ returned (Handler.GetUserProfile
                 (InMemory.serviceFailing (errorString "driver: bad connection"))
                 (InMemory.withToken InMemory.aliceToken) InMemory.noRequest)
       InMemory.world0
     = Return None (Some (wrapError "failed to retrieve user profile: driver: bad connection"
                            (errorString "driver: bad connection"))).
Proof.
  split; [|split].
  - destruct (internal_failures_reported InMemory.clearBcrypt
                (InMemory.serviceFailing (errorString "driver: bad connection"))
                Background InMemory.world0) as (L & _ & _).
    apply (L {| Username := "alice"; Password := "correct-pw" |}
             (errorString "driver: bad connection")).
    reflexivity.
  - destruct (internal_failures_reported InMemory.clearBcrypt
                (InMemory.serviceAnswering (Err (errorString "key is invalid"))
                   (Err TokenManager.ErrTokenInvalid))
                Background InMemory.world0) as (_ & G & _).
    apply (G {| Username := "alice"; Password := "correct-pw" |} "u-1" InMemory.aliceHash
             (errorString "key is invalid")); reflexivity.
  - destruct (internal_failures_reported InMemory.clearBcrypt
                (InMemory.serviceFailing (errorString "driver: bad connection"))
                (InMemory.withToken InMemory.aliceToken) InMemory.world0) as (_ & _ & P).
    apply (P InMemory.noRequest InMemory.aliceToken
             {| Claims := MapClaims (TokenManager.toMapClaims
                                       {| TokenManager.subject_id := "u-1";
                                          TokenManager.issued_at := 1000;
                                          TokenManager.expires_at := 87400 |});
                Valid := true |}
             "u-1" (errorString "driver: bad connection"));
      vm_compute; reflexivity.
Defined.

(** C8 as stated fails: two runs of [GetUserProfile] that differ only in the
    error of the database return different errors, each carrying the
    database's text; two runs of [Login] that differ only in the signing error
    do the same. *)
Lemma internal_error_text_reaches_caller :
  returned (Handler.GetUserProfile
              (InMemory.serviceFailing (errorString "driver: bad connection"))
              (InMemory.withToken InMemory.aliceToken) InMemory.noRequest) InMemory.world0
  <> returned (Handler.GetUserProfile
                 (InMemory.serviceFailing (errorString "pq: too many clients already"))
                 (InMemory.withToken InMemory.aliceToken) InMemory.noRequest) InMemory.world0
  /\ returned (Handler.Login InMemory.clearBcrypt
                 (InMemory.serviceAnswering (Err (errorString "key is invalid"))
                    (Err TokenManager.ErrTokenInvalid)) Background
                 {| Username := "alice"; Password := "correct-pw" |}) InMemory.world0
     <> returned (Handler.Login InMemory.clearBcrypt
                    (InMemory.serviceAnswering (Err (errorString "key is of invalid type"))
                       (Err TokenManager.ErrTokenInvalid)) Background
                    {| Username := "alice"; Password := "correct-pw" |}) InMemory.world0.
Proof. split; vm_compute; discriminate. Qed.

(** ** The two copies of [Login] *)

Section CopyPaths.
Variable bcrypt : Bcrypt.
Variables (h : AuthHandler) (ctx : Context) (req : LoginRequest) (w : World).

Local Abbreviation row := (QueryRow (db h) selectCredentials [Username req]).

Lemma checkPassword_copy (hashed password : string) :
  (Handler.checkPassword bcrypt hashed password = None
   /\ HandlerCopy.checkPassword bcrypt hashed password = None)
  \/ (Handler.checkPassword bcrypt hashed password = Some Handler.ErrInvalidCredentials
      /\ HandlerCopy.checkPassword bcrypt hashed password
         = Some (errorString "invalid credentials")).
Proof.
  unfold Handler.checkPassword, HandlerCopy.checkPassword.
  destruct (CompareHashAndPassword bcrypt _ _); auto.
Qed.

Lemma LoginCopy_lookup_failed (e : error) :
  snd (Scan2 row) = Some e ->
  returned (HandlerCopy.Login bcrypt h ctx req) w
  = Return None (Some (Errorf_w "invalid username or password: " e)).
Proof.
  intros E. run.
  destruct (Scan2 row) as [[uid hp] err]. simpl in E. now subst err.
Qed.

Lemma LoginCopy_password_rejected (userID hashed : string) :
  Scan2 row = (userID, hashed, None) ->
  HandlerCopy.checkPassword bcrypt hashed (Password req) <> None ->
  returned (HandlerCopy.Login bcrypt h ctx req) w
  = Return None (Some (errorString "invalid credentials")).
Proof.
  intros E C. run. rewrite E.
  destruct (checkPassword_copy hashed (Password req)) as [[_ K]|[_ K]];
    [congruence | now rewrite K].
Qed.

Lemma LoginCopy_generate (userID hashed : string) :
  Scan2 row = (userID, hashed, None) ->
  HandlerCopy.checkPassword bcrypt hashed (Password req) = None ->
  returned (HandlerCopy.Login bcrypt h ctx req) w
  = match Generate (jwtManager h) (now w) userID with
    | Err e => Return None (Some (Errorf_w "failed to generate token: " e))
    | Ok token => Return (Some {| AccessToken := token |}) None
    end.
Proof.
  intros E C. run. rewrite E, C. simpl.
  now destruct (Generate (jwtManager h) (now w) userID).
Qed.

End CopyPaths.




(** ** Hashing and checking passwords *)

(** [hashPassword] adds no failure of its own: it fails exactly when
    [bcrypt.GenerateFromPassword] does, and wraps that error. *)
Lemma hashPassword_cases (bcrypt : Bcrypt) (rnd : Result (list Byte.byte)) (password : string) :
  (exists hashed,
     GenerateFromPassword bcrypt rnd (String.list_byte_of_string password) DefaultCost
     = Ok hashed
     /\ Handler.hashPassword bcrypt rnd password
        = (String.string_of_list_byte hashed, None))
  \/ (exists e,
        GenerateFromPassword bcrypt rnd (String.list_byte_of_string password) DefaultCost
        = Err e
        /\ Handler.hashPassword bcrypt rnd password
           = ("", Some (Errorf_w "failed to hash password: " e))).
Proof.
  unfold Handler.hashPassword.
  destruct (GenerateFromPassword bcrypt rnd _ DefaultCost) as [hashed|e]; eauto.
Qed.

(** C3, as the code has it. When [hashPassword] succeeded on [p], its result
    holds the bytes bcrypt generated; [checkPassword] on that result accepts
    [p]; and on any candidate [q] it returns nil when bcrypt accepts [q]
    against those bytes and [ErrInvalidCredentials] when bcrypt rejects it.
    Whether a [q] other than [p] is rejected is bcrypt's verdict alone. *)
Theorem check_follows_bcrypt (bcrypt : Bcrypt) (rnd : Result (list Byte.byte))
    (p hashed : string) :
  acceptsOwnPassword bcrypt ->
  Handler.hashPassword bcrypt rnd p = (hashed, None) ->
  GenerateFromPassword bcrypt rnd (String.list_byte_of_string p) DefaultCost
  = Ok (String.list_byte_of_string hashed)
  /\ Handler.checkPassword bcrypt hashed p = None
  /\ (forall q,
        (CompareHashAndPassword bcrypt (String.list_byte_of_string hashed)
           (String.list_byte_of_string q) = None ->
         Handler.checkPassword bcrypt hashed q = None)
        /\ (CompareHashAndPassword bcrypt (String.list_byte_of_string hashed)
              (String.list_byte_of_string q) <> None ->
            Handler.checkPassword bcrypt hashed q = Some Handler.ErrInvalidCredentials)).
Proof.
  intros own H.
  destruct (hashPassword_cases bcrypt rnd p) as [(hb & G & K)|(e & _ & K)];
    [|congruence].
  rewrite K in H. injection H as <-.
  rewrite String.list_byte_of_string_of_list_byte.
  split; [exact G|split].
  - unfold Handler.checkPassword.
    rewrite String.list_byte_of_string_of_list_byte.
    now rewrite (own _ _ _ _ G).
  - intros q. unfold Handler.checkPassword.
    rewrite String.list_byte_of_string_of_list_byte.
    destruct (CompareHashAndPassword bcrypt hb (String.list_byte_of_string q)) as [e|];
      split; intros C; try reflexivity; congruence.
Qed.



(** The transparent stand-in meets the contract. *)
Lemma clearBcrypt_generate (rnd : Result (list Byte.byte)) (password : list Byte.byte)
    (cost : Z) (hashed : list Byte.byte) :
  GenerateFromPassword InMemory.clearBcrypt rnd password cost = Ok hashed ->
  exists salt, length salt = InMemory.saltLen /\ hashed = (salt ++ password)%list.
Proof.
  destruct rnd as [salt|e]; simpl; [|discriminate].
  intros H. injection H as <-.
  exists (take InMemory.saltLen (salt ++ replicate InMemory.saltLen Byte.x00)%list).
  split; [|reflexivity].
  rewrite length_take, length_app, length_replicate. lia.
Qed.

Lemma clearBcrypt_compare (salt password other : list Byte.byte) :
  length salt = InMemory.saltLen ->
  CompareHashAndPassword InMemory.clearBcrypt (salt ++ password)%list other = None
  <-> other = password.
Proof.
  intros L. simpl.
  rewrite length_app, L.
  destruct (Nat.ltb_spec (InMemory.saltLen + length password) InMemory.saltLen) as [F|_];
    [lia|].
  rewrite <- L, drop_app_length. unfold InMemory.bytes_eqb.
  destruct (String.eqb_spec (String.string_of_list_byte password)
              (String.string_of_list_byte other)) as [E|N].
  - split; [|reflexivity]. intros _.
    rewrite <- (String.list_byte_of_string_of_list_byte password),
            <- (String.list_byte_of_string_of_list_byte other).
    now rewrite E.
  - split; [discriminate|]. intros ->. now destruct N.
Qed.

(** The stand-in with bcrypt's key handling accepts a password against its
    own hash too. *)
Lemma keyedBcrypt_accepts_own : acceptsOwnPassword InMemory.keyedBcrypt.
Proof.
  intros rnd password cost hashed.
  unfold InMemory.keyedBcrypt. cbn [GenerateFromPassword CompareHashAndPassword].
  destruct (InMemory.keyLen <? length password)%nat; [discriminate|].
  destruct rnd as [salt|e]; [|discriminate].
  remember (take InMemory.saltLen (salt ++ replicate InMemory.saltLen Byte.x00)%list)
    as prefix eqn:P.
  assert (L : length prefix = InMemory.saltLen).
  { subst prefix. rewrite length_take, length_app, length_replicate. lia. }
  intros H. injection H as <-.
  rewrite length_app, L.
  destruct (Nat.ltb_spec (InMemory.saltLen + length (InMemory.scheduleKey password))
              InMemory.saltLen) as [F|_]; [lia|].
  rewrite <- L, drop_app_length.
  unfold InMemory.bytes_eqb. now rewrite String.eqb_refl.
Qed.

Lemma check_follows_bcrypt_witness :
  Handler.checkPassword InMemory.keyedBcrypt
    (fst (Handler.hashPassword InMemory.keyedBcrypt InMemory.salt0 "correct-pw"))
    "correct-pw" = None.
Proof.
  destruct (check_follows_bcrypt InMemory.keyedBcrypt InMemory.salt0 "correct-pw"
              (fst (Handler.hashPassword InMemory.keyedBcrypt InMemory.salt0 "correct-pw"))
              keyedBcrypt_accepts_own eq_refl) as (_ & own & _).
  exact own.
Defined.

(** C3 as stated fails on a bcrypt that reads the key as the package does:
    [hashPassword] succeeds on "a", and [checkPassword] accepts against its
    result the different password made of "a", a NUL byte and "a", whose key
    bytes are the same; so does a password of 73 bytes against the hash of
    its first 72. *)
Lemma other_password_accepted :
  snd (Handler.hashPassword InMemory.keyedBcrypt InMemory.salt0 InMemory.shortPassword)
  = None
  /\ InMemory.otherPassword <> InMemory.shortPassword
  /\ Handler.checkPassword InMemory.keyedBcrypt
       (fst (Handler.hashPassword InMemory.keyedBcrypt InMemory.salt0
               InMemory.shortPassword))
       InMemory.otherPassword = None
  /\ snd (Handler.hashPassword InMemory.keyedBcrypt InMemory.salt0 InMemory.password72)
     = None
  /\ InMemory.password73 <> InMemory.password72
  /\ Handler.checkPassword InMemory.keyedBcrypt
       (fst (Handler.hashPassword InMemory.keyedBcrypt InMemory.salt0
               InMemory.password72))
       InMemory.password73 = None.
Proof.
  repeat split; try (vm_compute; reflexivity); vm_compute; discriminate.
Qed.


(** * Further properties of the handlers *)

(** ** Every run of [Login], by cases *)

Lemma Scan2_ok (r : Row) (userID hashed : string) :
  Scan2 r = (userID, hashed, None) <-> r = RowCols [userID; hashed].
Proof.
  destruct r as [e|[|a [|b [|c cols]]]]; simpl; split; intros H;
    try discriminate; try (injection H as <- <-; reflexivity).
Qed.

Lemma Scan1_ok (r : Row) (username : string) :
  Scan1 r = (username, None) <-> r = RowCols [username].
Proof.
  destruct r as [e|[|a [|b cols]]]; simpl; split; intros H;
    try discriminate; try (injection H as <-; reflexivity).
Qed.

Lemma Login_run (bcrypt : Bcrypt) (h : AuthHandler) (ctx : Context)
    (req : LoginRequest) (w : World) :
  LoginRun bcrypt h ctx req w
    (returned (Handler.Login bcrypt h ctx req) w)
    (emitted (Handler.Login bcrypt h ctx req) w).
Proof.
  destruct (Scan2 (QueryRowContext (db h) ctx selectCredentials [Username req]))
    as [[userID hashed] [e|]] eqn:S.
  - pose proof (Login_lookup_failed bcrypt h ctx req w e) as R.
    rewrite S in R. specialize (R eq_refl).
    unfold returned. rewrite (emitted_app _ _ _ _ _ R), R.
    apply LookupFailed. now rewrite S.
  - pose proof S as Q. apply Scan2_ok in Q.
    destruct (checkPassword_cases bcrypt hashed (Password req)) as [[C K]|[[e C] K]].
    + destruct (Generate (jwtManager h) (now w) userID) as [token|e] eqn:G.
      * pose proof (Login_token_issued bcrypt h ctx req w userID hashed token S K G) as R.
        unfold returned. rewrite (emitted_app _ _ _ _ _ R), R.
        now apply TokenIssued with (hashed := hashed).
      * pose proof (Login_signing_failed bcrypt h ctx req w userID hashed e S K G) as R.
        unfold returned. rewrite (emitted_app _ _ _ _ _ R), R.
        now apply SigningFailed with (hashed := hashed).
    + assert (N : Handler.checkPassword bcrypt hashed (Password req) <> None) by congruence.
      pose proof (Login_password_rejected bcrypt h ctx req w userID hashed S N) as R.
      unfold returned. rewrite (emitted_app _ _ _ _ _ R), R.
      now apply PasswordRejected with (userID := userID) (hashed := hashed) (e := e).
Qed.

(** ** [Login] *)

(** X1. [Login] returns a token exactly when the lookup found a row, bcrypt
    accepted the request's password against the hash of that row, and the
    token manager generated this token for the id of that row. *)
Theorem login_issues_token_iff (bcrypt : Bcrypt) (h : AuthHandler) (ctx : Context)
    (req : LoginRequest) (w : World) (resp : LoginResponse) :
  returned (Handler.Login bcrypt h ctx req) w = Return (Some resp) None
  <-> exists userID hashed,
        QueryRowContext (db h) ctx selectCredentials [Username req]
        = RowCols [userID; hashed]
        /\ CompareHashAndPassword bcrypt (String.list_byte_of_string hashed)
             (String.list_byte_of_string (Password req)) = None
        /\ Generate (jwtManager h) (now w) userID = Ok (AccessToken resp).
Proof.
  split.
  - intros R. pose proof (Login_run bcrypt h ctx req w) as L. rewrite R in L.
    inversion L as [| | |userID hashed token Q C G E]; subst.
    exists userID, hashed. auto.
  - intros (userID & hashed & Q & C & G).
    pose proof (Login_run bcrypt h ctx req w) as L.
    inversion L as [e S|u hp e Q' C'|u hp e Q' C' G'|u hp token Q' C' G'];
      try (rewrite Q in S; discriminate);
      rewrite Q in Q'; injection Q' as <- <-; try congruence.
    rewrite G in G'. injection G' as <-. now destruct resp.
Qed.

(** X2. The error of a failed [Login] tells the two kinds of failure apart
    and nothing more: [ErrInvalidCredentials] exactly when the lookup failed
    or bcrypt rejected the password, and otherwise the signing error wrapped
    under "failed to generate token: ". *)
Theorem login_error_identifies_cause (bcrypt : Bcrypt) (h : AuthHandler) (ctx : Context)
    (req : LoginRequest) (w : World) :
  (returned (Handler.Login bcrypt h ctx req) w
   = Return None (Some Handler.ErrInvalidCredentials)
   <-> (exists e, snd (Scan2 (QueryRowContext (db h) ctx selectCredentials
                                [Username req])) = Some e)
       \/ (exists userID hashed e,
             QueryRowContext (db h) ctx selectCredentials [Username req]
             = RowCols [userID; hashed]
             /\ CompareHashAndPassword bcrypt (String.list_byte_of_string hashed)
                  (String.list_byte_of_string (Password req)) = Some e))
  /\ (forall err,
        returned (Handler.Login bcrypt h ctx req) w = Return None (Some err) ->
        err <> Handler.ErrInvalidCredentials ->
        exists userID hashed e,
          QueryRowContext (db h) ctx selectCredentials [Username req]
          = RowCols [userID; hashed]
          /\ CompareHashAndPassword bcrypt (String.list_byte_of_string hashed)
               (String.list_byte_of_string (Password req)) = None
          /\ Generate (jwtManager h) (now w) userID = Err e
          /\ err = wrapError ("failed to generate token: " +:+ Error e) e).
Proof.
  pose proof (Login_run bcrypt h ctx req w) as L.
  split; [split|].
  - intros R. rewrite R in L.
    inversion L as [e S|u hp e Q C| |]; subst; [left | right]; eauto.
  - intros [[e S]|(u & hp & e & Q & C)];
      inversion L as [e' S'|u' hp' e' Q' C'|u' hp' e' Q' C' G'|u' hp' tok Q' C' G'];
      try reflexivity.
    + rewrite Q' in S. discriminate.
    + rewrite Q' in S. discriminate.
    + rewrite Q in Q'. injection Q' as <- <-. congruence.
    + rewrite Q in Q'. injection Q' as <- <-. congruence.
  - intros err R N. rewrite R in L.
    inversion L as [e S|u hp e Q C|u hp e Q C G|]; subst; try (now destruct N).
    exists u, hp, e. auto.
Qed.

(** X3. Every run of [Login] makes exactly one database round trip, first of
    all, with the fixed statement and the request's username as its only
    argument; and it calls the token manager only for the id of a row whose
    hash bcrypt accepted the password against. *)
Theorem login_effects (bcrypt : Bcrypt) (h : AuthHandler) (ctx : Context)
    (req : LoginRequest) (w : World) :
  (exists rest,
     emitted (Handler.Login bcrypt h ctx req) w
     = DbQuery selectCredentials [Username req] :: rest
     /\ forall query args, DbQuery query args ∉ rest)
  /\ (forall userID,
        JwtGenerate userID ∈ emitted (Handler.Login bcrypt h ctx req) w ->
        exists hashed,
          QueryRowContext (db h) ctx selectCredentials [Username req]
          = RowCols [userID; hashed]
          /\ CompareHashAndPassword bcrypt (String.list_byte_of_string hashed)
               (String.list_byte_of_string (Password req)) = None)
  /\ (forall tokenString,
        JwtVerify tokenString ∉ emitted (Handler.Login bcrypt h ctx req) w).
Proof.
  pose proof (Login_run bcrypt h ctx req w) as L.
  split; [|split].
  - inversion L; eexists; (split; [reflexivity|]); intros query args I;
      repeat (apply elem_of_cons in I as [I|I]; [discriminate|]);
      now apply elem_of_nil in I.
  - intros userID I.
    inversion L as [e S X Y|u hp e Q C X Y|u hp e Q C G X Y|u hp tok Q C G X Y];
      rewrite <- Y in I;
      repeat (apply elem_of_cons in I as [I|I];
              [try discriminate; injection I as ->; eauto|]);
      now apply elem_of_nil in I.
  - intros tokenString I.
    inversion L as [e S X Y|u hp e Q C X Y|u hp e Q C G X Y|u hp tok Q C G X Y];
      rewrite <- Y in I;
      repeat (apply elem_of_cons in I as [I|I]; [discriminate|]);
      now apply elem_of_nil in I.
Qed.

(** X4. The password reaches nothing but bcrypt: two requests with the same
    username whose passwords bcrypt judges alike against the stored hash get
    the same reply and leave the same world behind, log lines included. *)
Theorem login_password_only_compared (bcrypt : Bcrypt) (h : AuthHandler) (ctx : Context)
    (req req' : LoginRequest) (w : World) :
  Username req = Username req' ->
  (forall userID hashed,
     QueryRowContext (db h) ctx selectCredentials [Username req]
     = RowCols [userID; hashed] ->
     (CompareHashAndPassword bcrypt (String.list_byte_of_string hashed)
        (String.list_byte_of_string (Password req)) = None
      <-> CompareHashAndPassword bcrypt (String.list_byte_of_string hashed)
            (String.list_byte_of_string (Password req')) = None)) ->
  Handler.Login bcrypt h ctx req w = Handler.Login bcrypt h ctx req' w.
Proof.
  intros U V. run. rewrite <- U.
  destruct (Scan2 _) as [[userID hashed] [e|]] eqn:S; [reflexivity|].
  apply Scan2_ok in S. specialize (V userID hashed S).
  unfold Handler.checkPassword.
  destruct (CompareHashAndPassword bcrypt _ (String.list_byte_of_string (Password req)))
    as [e|];
    destruct (CompareHashAndPassword bcrypt _ (String.list_byte_of_string (Password req')))
    as [e'|]; try reflexivity.
  - destruct V as [_ V]. specialize (V eq_refl). discriminate.
  - destruct V as [V _]. specialize (V eq_refl). discriminate.
Qed.

Lemma login_password_only_compared_witness :
  Handler.Login InMemory.clearBcrypt InMemory.service Background
    {| Username := "alice"; Password := "wrong-pw" |} InMemory.world0
  = Handler.Login InMemory.clearBcrypt InMemory.service Background
      {| Username := "alice"; Password := "" |} InMemory.world0.
Proof.
  apply login_password_only_compared; [reflexivity|].
  intros userID hashed Q. injection Q as <- <-. split; discriminate.
Defined.

(** ** Every run of [GetUserProfile], by cases *)

Lemma subjectOf_Some (token : Token) (userID : string) :
  subjectOf token = Some userID <-> carriesSubject token userID.
Proof.
  split.
  - unfold subjectOf, carriesSubject, claimString.
    destruct token as [[m|] valid]; simpl; [|discriminate].
    destruct valid; simpl; [|discriminate].
    destruct (m !! "user_id") as [[s|n|b|]|] eqn:L; simpl; try discriminate.
    intros H. injection H as <-. exists m. auto.
  - intros (m & C & V & K). destruct token as [claims valid]. simpl in C, V. subst.
    unfold subjectOf, claimString. simpl. now rewrite K.
Qed.

Lemma subjectOf_None (token : Token) :
  subjectOf token = None <-> forall userID, ~ carriesSubject token userID.
Proof.
  split.
  - intros N userID C. apply subjectOf_Some in C. congruence.
  - intros N. destruct (subjectOf token) as [userID|] eqn:S; [|reflexivity].
    apply subjectOf_Some in S. now destruct (N userID).
Qed.

Lemma GetUserProfile_run (h : AuthHandler) (ctx : Context)
    (req : GetUserProfileRequest) (w : World) :
  ProfileRun h ctx w
    (returned (Handler.GetUserProfile h ctx req) w)
    (emitted (Handler.GetUserProfile h ctx req) w).
Proof.
  destruct (extractToken_cases ctx)
    as [[N E]|[(md & P & L & E)|(md & t & rest & P & L & E)]].
  - pose proof (GetUserProfile_no_token h ctx req w _ _ E) as R.
    unfold returned, emitted. rewrite R. simpl. rewrite drop_all.
    now apply NoMetadata.
  - pose proof (GetUserProfile_no_token h ctx req w _ _ E) as R.
    unfold returned, emitted. rewrite R. simpl. rewrite drop_all.
    now apply NoToken with (md := md).
  - destruct (Verify (jwtManager h) (now w) t) as [token|e] eqn:V.
    + destruct (subjectOf token) as [userID|] eqn:S.
      * pose proof (GetUserProfile_lookup h ctx req w t userID token E V S) as R.
        unfold returned. rewrite (emitted_app _ _ _ _ _ R), R. simpl.
        apply subjectOf_Some in S.
        destruct (Scan1 _) as [username [e|]] eqn:Q.
        -- now apply ProfileLookupFailed
             with (md := md) (rest := rest) (token := token) (zero := username).
        -- apply Scan1_ok in Q.
           now apply ProfileFound with (md := md) (rest := rest) (token := token).
      * pose proof (GetUserProfile_claims_rejected h ctx req w t token E V S) as R.
        unfold returned. rewrite (emitted_app _ _ _ _ _ R), R.
        pose proof (proj1 (subjectOf_None token) S) as S'.
        now apply ClaimsRejected with (md := md) (rest := rest) (token := token).
    + pose proof (GetUserProfile_verify_failed h ctx req w t e E V) as R.
      unfold returned. rewrite (emitted_app _ _ _ _ _ R), R.
      now apply VerifyFailed with (md := md) (rest := rest) (e := e).
Qed.

(** ** [extractTokenFromMetadata] and [GetUserProfile] *)

(** X5. [extractTokenFromMetadata] succeeds exactly when the metadata holds at
    least one value under [authorization], and then returns the first value
    as it stands; when it fails the token is empty and the error is one of
    its two sentinels. *)
Theorem extract_first_value (ctx : Context) :
  (forall t,
     Handler.extractTokenFromMetadata ctx = (t, None)
     <-> exists md rest, incomingMD ctx = Some md
                         /\ md !! "authorization" = Some (t :: rest))
  /\ (forall t e,
        Handler.extractTokenFromMetadata ctx = (t, Some e) ->
        t = "" /\ (e = Handler.ErrMissingMetadata \/ e = Handler.ErrNoAuthToken)).
Proof.
  split.
  - intros t. split.
    + intros E.
      destruct (extractToken_cases ctx)
        as [[_ E']|[(md & _ & _ & E')|(md & t' & rest & P & L & E')]];
        rewrite E' in E; try discriminate.
      injection E as <-. eauto.
    + intros (md & rest & P & L).
      unfold Handler.extractTokenFromMetadata, FromIncomingContext, mdGet.
      now rewrite P, L.
  - intros t e E.
    destruct (extractToken_cases ctx)
      as [[_ E']|[(md & _ & _ & E')|(md & t' & rest & P & L & E')]];
      rewrite E' in E; try discriminate; injection E as <- <-; auto.
Qed.

(** X6. [GetUserProfile] returns a profile exactly when the first
    [authorization] value verifies to a valid token with map claims and a
    string [user_id], and the lookup under that id yields one column: the
    response carries that id and that column. The request message plays no
    part. *)
Theorem profile_returned_iff (h : AuthHandler) (ctx : Context)
    (req : GetUserProfileRequest) (w : World) (resp : GetUserProfileResponse) :
  returned (Handler.GetUserProfile h ctx req) w = Return (Some resp) None
  <-> exists md t rest token,
        incomingMD ctx = Some md
        /\ md !! "authorization" = Some (t :: rest)
        /\ Verify (jwtManager h) (now w) t = Ok token
        /\ carriesSubject token (UserId resp)
        /\ QueryRowContext (db h) ctx selectUsername [UserId resp]
           = RowCols [RespUsername resp].
Proof.
  split.
  - intros R. pose proof (GetUserProfile_run h ctx req w) as L. rewrite R in L.
    inversion L as [| | | | |md t rest token userID username P A V C Q E]; subst.
    exists md, t, rest, token. auto.
  - intros (md & t & rest & token & P & A & V & C & Q).
    assert (E : Handler.extractTokenFromMetadata ctx = (t, None)).
    { unfold Handler.extractTokenFromMetadata, FromIncomingContext, mdGet.
      now rewrite P, A. }
    apply subjectOf_Some in C. unfold returned.
    rewrite (GetUserProfile_lookup h ctx req w t (UserId resp) token E V C), Q.
    simpl. now destruct resp.
Qed.

(** X7. The three sentinels of the token stage each name what failed:
    [ErrMissingMetadata] exactly when the context has no incoming metadata,
    [ErrNoAuthToken] exactly when the metadata has no [authorization] value,
    [ErrInvalidToken] exactly when the first value was refused by the token
    manager. *)
Theorem profile_error_identifies_stage (h : AuthHandler) (ctx : Context)
    (req : GetUserProfileRequest) (w : World) :
  (returned (Handler.GetUserProfile h ctx req) w
   = Return None (Some Handler.ErrMissingMetadata)
   <-> incomingMD ctx = None)
  /\ (returned (Handler.GetUserProfile h ctx req) w
      = Return None (Some Handler.ErrNoAuthToken)
      <-> exists md, incomingMD ctx = Some md /\ mdGet md "authorization" = [])
  /\ (returned (Handler.GetUserProfile h ctx req) w
      = Return None (Some Handler.ErrInvalidToken)
      <-> exists md t rest e,
            incomingMD ctx = Some md
            /\ md !! "authorization" = Some (t :: rest)
            /\ Verify (jwtManager h) (now w) t = Err e).
Proof.
  pose proof (GetUserProfile_run h ctx req w) as L.
  split; [|split]; split.
  - intros R. rewrite R in L. now inversion L.
  - intros N. unfold returned.
    rewrite (GetUserProfile_no_token h ctx req w "" Handler.ErrMissingMetadata);
      [reflexivity|].
    unfold Handler.extractTokenFromMetadata, FromIncomingContext. now rewrite N.
  - intros R. rewrite R in L. inversion L; eauto.
  - intros (md & P & A). unfold returned.
    rewrite (GetUserProfile_no_token h ctx req w "" Handler.ErrNoAuthToken);
      [reflexivity|].
    unfold Handler.extractTokenFromMetadata, FromIncomingContext. now rewrite P, A.
  - intros R. rewrite R in L.
    inversion L as [| |md t rest e P A V X| | |]; subst.
    exists md, t, rest, e. auto.
  - intros (md & t & rest & e & P & A & V).
    assert (E : Handler.extractTokenFromMetadata ctx = (t, None)).
    { unfold Handler.extractTokenFromMetadata, FromIncomingContext, mdGet.
      now rewrite P, A. }
    unfold returned. now rewrite (GetUserProfile_verify_failed h ctx req w t e E V).
Qed.

(** X8. Once the token manager has accepted the token, [GetUserProfile] fails
    with [ErrInvalidTokenClaims] exactly when the token does not carry a
    subject: its claims are not map claims, or it is not marked valid, or
    [user_id] is missing or not a string. *)
Theorem claims_rejected_iff (h : AuthHandler) (ctx : Context)
    (req : GetUserProfileRequest) (w : World) (tokenString : string) (token : Token) :
  Handler.extractTokenFromMetadata ctx = (tokenString, None) ->
  Verify (jwtManager h) (now w) tokenString = Ok token ->
  returned (Handler.GetUserProfile h ctx req) w
  = Return None (Some Handler.ErrInvalidTokenClaims)
  <-> (forall m, Claims token <> MapClaims m)
      \/ Valid token = false
      \/ (forall s, ~ exists m, Claims token = MapClaims m
                               /\ m !! "user_id" = Some (AString s)).
Proof.
  intros E V. split.
  - intros R.
    destruct (subjectOf token) as [userID|] eqn:S.
    + unfold returned in R.
      rewrite (GetUserProfile_lookup h ctx req w tokenString userID token E V S) in R.
      simpl in R. destruct (Scan1 _) as [username [e|]]; discriminate.
    + pose proof (proj1 (subjectOf_None token) S) as N.
      destruct (Valid token) eqn:B; [|auto].
      right. right. intros s (m & C & K). apply (N s). exists m. auto.
  - intros H.
    assert (S : subjectOf token = None).
    { apply subjectOf_None. intros userID (m & C & B & K).
      destruct H as [H|[H|H]]; [now apply (H m) | congruence |].
      apply (H userID). eauto. }
    unfold returned.
    now rewrite (GetUserProfile_claims_rejected h ctx req w tokenString token E V S).
Qed.

(** A token the manager returns without marking it valid is turned down even
    though its [user_id] is a string. *)
Lemma claims_rejected_iff_witness :
  returned (Handler.GetUserProfile
              (InMemory.serviceAnswering (Ok "t")
                 (Ok {| Claims := MapClaims {[ "user_id" := AString "u-1" ]};
                        Valid := false |}))
              (InMemory.withToken "t") InMemory.noRequest) InMemory.world0
  = Return None (Some Handler.ErrInvalidTokenClaims).
Proof.
  apply (claims_rejected_iff _ _ _ _ "t"
           {| Claims := MapClaims {[ "user_id" := AString "u-1" ]}; Valid := false |});
    [reflexivity | reflexivity | right; left; reflexivity].
Defined.

(** X9. What [GetUserProfile] touches: it verifies nothing but the first
    [authorization] value, as it stands; it reads the database only after
    the token manager accepted that value, with the fixed statement and the
    subject of the token as its only argument; it writes no log line and
    generates no token. *)
Theorem profile_effects (h : AuthHandler) (ctx : Context)
    (req : GetUserProfileRequest) (w : World) :
  (forall t,
     JwtVerify t ∈ emitted (Handler.GetUserProfile h ctx req) w ->
     exists md rest, incomingMD ctx = Some md
                     /\ md !! "authorization" = Some (t :: rest))
  /\ (forall query args,
        DbQuery query args ∈ emitted (Handler.GetUserProfile h ctx req) w ->
        exists md t rest token userID,
          incomingMD ctx = Some md
          /\ md !! "authorization" = Some (t :: rest)
          /\ Verify (jwtManager h) (now w) t = Ok token
          /\ carriesSubject token userID
          /\ query = selectUsername /\ args = [userID])
  /\ (forall line, LogPrintf line ∉ emitted (Handler.GetUserProfile h ctx req) w)
  /\ (forall userID, JwtGenerate userID ∉ emitted (Handler.GetUserProfile h ctx req) w).
Proof.
  pose proof (GetUserProfile_run h ctx req w) as L.
  split; [|split; [|split]].
  - intros t I.
    inversion L as [N X Y|md P A X Y|md t' rest e P A V X Y|md t' rest token P A V C X Y
                   |md t' rest token u z e P A V C Q X Y
                   |md t' rest token u name P A V C Q X Y];
      rewrite <- Y in I;
      repeat (apply elem_of_cons in I as [I|I];
              [try discriminate; injection I as ->; eauto|]);
      now apply elem_of_nil in I.
  - intros query args I.
    inversion L as [N X Y|md P A X Y|md t' rest e P A V X Y|md t' rest token P A V C X Y
                   |md t' rest token u z e P A V C Q X Y
                   |md t' rest token u name P A V C Q X Y];
      rewrite <- Y in I;
      repeat (apply elem_of_cons in I as [I|I];
              [try discriminate; injection I as -> ->;
               exists md, t', rest, token, u; auto 10|]);
      now apply elem_of_nil in I.
  - intros line I.
    inversion L as [N X Y|md P A X Y|md t' rest e P A V X Y|md t' rest token P A V C X Y
                   |md t' rest token u z e P A V C Q X Y
                   |md t' rest token u name P A V C Q X Y];
      rewrite <- Y in I;
      repeat (apply elem_of_cons in I as [I|I]; [discriminate|]);
      now apply elem_of_nil in I.
  - intros userID I.
    inversion L as [N X Y|md P A X Y|md t' rest e P A V X Y|md t' rest token P A V C X Y
                   |md t' rest token u z e P A V C Q X Y
                   |md t' rest token u name P A V C Q X Y];
      rewrite <- Y in I;
      repeat (apply elem_of_cons in I as [I|I]; [discriminate|]);
      now apply elem_of_nil in I.
Qed.

(** ** From [hashPassword] to [Login] *)

(** X10. Hashing and logging in compose: when the row of a user holds what
    [hashPassword] returned for a password, and bcrypt accepts a password
    against the hash it generated from it, [Login] with that password returns
    the token the manager generates for the id of the row. *)
Theorem stored_hash_logs_in (bcrypt : Bcrypt) (h : AuthHandler) (ctx : Context)
    (req : LoginRequest) (w : World) (rnd : Result (list Byte.byte))
    (userID hashed token : string) :
  (forall r password cost hb,
     GenerateFromPassword bcrypt r password cost = Ok hb ->
     CompareHashAndPassword bcrypt hb password = None) ->
  Handler.hashPassword bcrypt rnd (Password req) = (hashed, None) ->
  QueryRowContext (db h) ctx selectCredentials [Username req]
  = RowCols [userID; hashed] ->
  Generate (jwtManager h) (now w) userID = Ok token ->
  returned (Handler.Login bcrypt h ctx req) w
  = Return (Some {| AccessToken := token |}) None
  /\ emitted (Handler.Login bcrypt h ctx req) w
     = [DbQuery selectCredentials [Username req]; JwtGenerate userID].
Proof.
  intros own H Q G.
  destruct (hashPassword_cases bcrypt rnd (Password req)) as [(hb & B & K)|(e & _ & K)];
    [|congruence].
  rewrite K in H. injection H as <-.
  assert (C : Handler.checkPassword bcrypt (String.string_of_list_byte hb) (Password req)
              = None).
  { unfold Handler.checkPassword. rewrite String.list_byte_of_string_of_list_byte.
    now rewrite (own _ _ _ _ B). }
  apply Scan2_ok in Q.
  pose proof (Login_token_issued bcrypt h ctx req w userID _ token Q C G) as R.
  split.
  - unfold returned. now rewrite R.
  - now apply emitted_app in R.
Qed.

Lemma stored_hash_logs_in_witness :
  returned (Handler.Login InMemory.clearBcrypt InMemory.service Background
              {| Username := "alice"; Password := "correct-pw" |}) InMemory.world0
  = Return (Some {| AccessToken := InMemory.aliceToken |}) None
  /\ emitted (Handler.Login InMemory.clearBcrypt InMemory.service Background
                {| Username := "alice"; Password := "correct-pw" |}) InMemory.world0
     = [DbQuery selectCredentials ["alice"]; JwtGenerate "u-1"].
Proof.
  apply (stored_hash_logs_in InMemory.clearBcrypt InMemory.service Background
           {| Username := "alice"; Password := "correct-pw" |} InMemory.world0
           InMemory.salt0 "u-1" InMemory.aliceHash InMemory.aliceToken).
  - intros r password cost hb G.
    destruct (clearBcrypt_generate _ _ _ _ G) as (salt & L & ->).
    now apply clearBcrypt_compare.
  - reflexivity.
  - reflexivity.
  - vm_compute. reflexivity.
Defined.

(** ** The copy's [GetUserProfile] *)

Ltac runCopy :=
  unfold returned, HandlerCopy.GetUserProfile, HandlerCopy.validateToken,
    FromIncomingContext, queryRow, jwtVerify, emit, clock, bind, ret; simpl.

Lemma GetUserProfileCopy_run (h : AuthHandler) (ctx : Context)
    (req : GetUserProfileRequest) (w : World) :
  ProfileCopyRun h ctx w (returned (HandlerCopy.GetUserProfile h ctx req) w).
Proof.
  runCopy.
  destruct (incomingMD ctx) as [md|] eqn:P; [|now apply CopyNoMetadata].
  unfold mdGet.
  destruct (md !! "authorization") as [[|t rest]|] eqn:A; simpl.
  - apply CopyNoToken with (md := md); [assumption|]. unfold mdGet. now rewrite A.
  - destruct (Verify (jwtManager h) (now w) t) as [token|e] eqn:V; simpl.
    + destruct token as [[m|] valid] eqn:T; simpl.
      * destruct valid; simpl.
        -- unfold claimString.
           destruct (m !! "user_id") as [[s|n|b|]|] eqn:K; simpl;
             try (apply CopyNoSubject with (md := md) (t := t) (rest := rest)
                    (token := token) (m := m); subst; auto; intros s'; congruence).
           destruct (Scan1 (QueryRow (db h) selectUsername [s])) as [username [e|]] eqn:Q;
             simpl.
           ++ apply CopyLookupFailed with (md := md) (t := t) (rest := rest)
                (token := token) (userID := s) (zero := username); subst; auto.
              exists m. auto.
           ++ apply Scan1_ok in Q.
              apply CopyProfileFound with (md := md) (t := t) (rest := rest)
                (token := token); subst; auto.
              exists m. auto.
        -- apply CopyClaimsInvalid with (md := md) (t := t) (rest := rest)
             (token := token); subst; auto.
      * apply CopyClaimsInvalid with (md := md) (t := t) (rest := rest)
          (token := token); subst; auto.
    + now apply CopyVerifyFailed with (md := md) (t := t) (rest := rest).
  - apply CopyNoToken with (md := md); [assumption|]. unfold mdGet. now rewrite A.
Qed.

Lemma ProfileRun_shape (h : AuthHandler) (ctx : Context) (w : World)
    (r : Reply GetUserProfileResponse) (events : list event) :
  ProfileRun h ctx w r events -> responseXorError r.
Proof. intros L. inversion L; subst; [right.. | left]; eauto. Qed.

Lemma ProfileCopyRun_shape (h : AuthHandler) (ctx : Context) (w : World)
    (r : Reply GetUserProfileResponse) :
  ProfileCopyRun h ctx w r -> responseXorError r.
Proof. intros L. inversion L; subst; [right.. | left]; eauto. Qed.

Lemma responseXorError_exclusive {A} (r : Reply A) :
  responseXorError r ->
  (exists e, r = Return None (Some e)) <-> ~ exists resp, r = Return (Some resp) None.
Proof.
  intros [[resp ->]|[e ->]]; split.
  - intros [e E]. discriminate.
  - intros N. destruct N. eauto.
  - intros _ [resp E]. discriminate.
  - eauto.
Qed.

Lemma profile_copy_returned_iff (h : AuthHandler) (ctx : Context)
    (req : GetUserProfileRequest) (w : World) (resp : GetUserProfileResponse) :
  returned (HandlerCopy.GetUserProfile h ctx req) w = Return (Some resp) None
  <-> exists md t rest token,
        incomingMD ctx = Some md
        /\ md !! "authorization" = Some (t :: rest)
        /\ Verify (jwtManager h) (now w) t = Ok token
        /\ carriesSubject token (UserId resp)
        /\ QueryRow (db h) selectUsername [UserId resp] = RowCols [RespUsername resp].
Proof.
  split.
  - intros R. pose proof (GetUserProfileCopy_run h ctx req w) as L. rewrite R in L.
    inversion L as [| | | | | |md t rest token userID username P A V C Q E]; subst.
    exists md, t, rest, token. auto.
  - intros (md & t & rest & token & P & A & V & (m & C & B & K) & Q).
    destruct token as [claims valid]. simpl in C, B. subst.
    runCopy. rewrite P. unfold mdGet. rewrite A. simpl. rewrite V. simpl.
    unfold claimString. rewrite K. simpl. rewrite Q. simpl. now destruct resp.
Qed.

(** X11. The copy's [validateToken] keeps the failure of the token manager:
    its [GetUserProfile] returns that error wrapped under "invalid or expired
    token: ", so two runs in which the manager refused the token for different
    reasons return different errors. *)
Theorem copy_keeps_verify_failure (h : AuthHandler) (ctx : Context)
    (req : GetUserProfileRequest) (w : World) (md : gmap string (list string))
    (t : string) (rest : list string) (e : error) :
  incomingMD ctx = Some md ->
  md !! "authorization" = Some (t :: rest) ->
  Verify (jwtManager h) (now w) t = Err e ->
  returned (HandlerCopy.GetUserProfile h ctx req) w
  = Return None (Some (wrapError ("invalid or expired token: " +:+ Error e) e))
  /\ (forall h' w' e',
        Verify (jwtManager h') (now w') t = Err e' ->
        returned (HandlerCopy.GetUserProfile h ctx req) w
        = returned (HandlerCopy.GetUserProfile h' ctx req) w' ->
        e = e').
Proof.
  intros P A V.
  assert (R : forall h0 w0 e0, Verify (jwtManager h0) (now w0) t = Err e0 ->
                returned (HandlerCopy.GetUserProfile h0 ctx req) w0
                = Return None (Some (wrapError ("invalid or expired token: " +:+ Error e0)
                                       e0))).
  { intros h0 w0 e0 V0. runCopy. rewrite P. unfold mdGet. rewrite A. simpl.
    now rewrite V0. }
  split; [now apply R|].
  intros h' w' e' V' E. rewrite (R h w e V), (R h' w' e' V') in E. congruence.
Qed.

Lemma copy_keeps_verify_failure_witness :
  returned (HandlerCopy.GetUserProfile InMemory.service
              (InMemory.withToken InMemory.aliceToken) InMemory.noRequest)
    InMemory.afterExpiry
  = Return None (Some (wrapError "invalid or expired token: TokenExpired"
                         TokenManager.ErrTokenExpired)).
Proof.
  apply (copy_keeps_verify_failure InMemory.service
           (InMemory.withToken InMemory.aliceToken) InMemory.noRequest
           InMemory.afterExpiry {[ "authorization" := [InMemory.aliceToken] ]}
           InMemory.aliceToken [] TokenManager.ErrTokenExpired);
    vm_compute; reflexivity.
Defined.

(** X12. When the profile lookup answers the same with and without the
    request context, the two copies of [GetUserProfile] return a profile on
    the same runs, and then the same profile; each fails exactly when the
    other does. *)
Theorem profile_copies_agree (h : AuthHandler) (ctx : Context)
    (req : GetUserProfileRequest) (w : World) :
  (forall userID,
     QueryRowContext (db h) ctx selectUsername [userID]
     = QueryRow (db h) selectUsername [userID]) ->
  (forall resp,
     returned (Handler.GetUserProfile h ctx req) w = Return (Some resp) None
     <-> returned (HandlerCopy.GetUserProfile h ctx req) w = Return (Some resp) None)
  /\ ((exists e, returned (Handler.GetUserProfile h ctx req) w = Return None (Some e))
      <-> (exists e, returned (HandlerCopy.GetUserProfile h ctx req) w
                     = Return None (Some e))).
Proof.
  intros Q.
  assert (S : forall resp,
            returned (Handler.GetUserProfile h ctx req) w = Return (Some resp) None
            <-> returned (HandlerCopy.GetUserProfile h ctx req) w
                = Return (Some resp) None).
  { intros resp. rewrite profile_copy_returned_iff.
    pose proof (GetUserProfile_run h ctx req w) as L.
    split.
    - intros R. rewrite R in L.
      inversion L as [| | | | |md t rest token userID username P A V C K E]; subst.
      exists md, t, rest, token. rewrite <- Q. auto.
    - intros (md & t & rest & token & P & A & V & C & K).
      assert (E : Handler.extractTokenFromMetadata ctx = (t, None)).
      { unfold Handler.extractTokenFromMetadata, FromIncomingContext, mdGet.
        now rewrite P, A. }
      apply subjectOf_Some in C. unfold returned.
      rewrite (GetUserProfile_lookup h ctx req w t (UserId resp) token E V C), Q, K.
      simpl. now destruct resp. }
  split; [exact S|].
  rewrite (responseXorError_exclusive _
             (ProfileRun_shape _ _ _ _ _ (GetUserProfile_run h ctx req w))).
  rewrite (responseXorError_exclusive _
             (ProfileCopyRun_shape _ _ _ _ (GetUserProfileCopy_run h ctx req w))).
  split; intros N [resp R]; apply N; exists resp; now apply S.
Qed.

Lemma profile_copies_agree_witness :
  returned (HandlerCopy.GetUserProfile InMemory.service
              (InMemory.withToken InMemory.aliceToken) InMemory.noRequest) InMemory.world0
  = Return (Some {| UserId := "u-1"; RespUsername := "alice" |}) None.
Proof.
  destruct (profile_copies_agree InMemory.service
              (InMemory.withToken InMemory.aliceToken) InMemory.noRequest InMemory.world0)
    as (S & _).
  - intros userID. reflexivity.
  - apply S. vm_compute. reflexivity.
Defined.

(** X13. Given a token the manager accepted, the copy tells the two claim
    failures apart where [auth.go] has one error for both: "invalid token
    claims" exactly when the claims are not map claims or the token is not
    marked valid, "user_id claim not found in token" exactly when they are
    and [user_id] is missing or not a string. *)
Theorem copy_claims_errors (h : AuthHandler) (ctx : Context)
    (req : GetUserProfileRequest) (w : World) (md : gmap string (list string))
    (t : string) (rest : list string) (token : Token) :
  incomingMD ctx = Some md ->
  md !! "authorization" = Some (t :: rest) ->
  Verify (jwtManager h) (now w) t = Ok token ->
  (returned (HandlerCopy.GetUserProfile h ctx req) w
   = Return None (Some (errorString "invalid token claims"))
   <-> (forall m, Claims token <> MapClaims m) \/ Valid token = false)
  /\ (returned (HandlerCopy.GetUserProfile h ctx req) w
      = Return None (Some (errorString "user_id claim not found in token"))
      <-> exists m, Claims token = MapClaims m /\ Valid token = true
                    /\ forall s, m !! "user_id" <> Some (AString s)).
Proof.
  intros P A V.
  pose proof (GetUserProfileCopy_run h ctx req w) as L.
  assert (same : forall md' t' rest' token',
            incomingMD ctx = Some md' -> md' !! "authorization" = Some (t' :: rest') ->
            Verify (jwtManager h) (now w) t' = Ok token' -> token' = token).
  { intros md' t' rest' token' P' A' V'.
    rewrite P in P'. injection P' as <-. rewrite A in A'. injection A' as <- <-.
    congruence. }
  split; split.
  - intros R. rewrite R in L.
    inversion L as [| | |md' t' rest' tk P' A' V' H| | |]; subst.
    now rewrite <- (same _ _ _ _ P' A' V').
  - intros H. destruct token as [claims valid]. simpl in H.
    runCopy. rewrite P. unfold mdGet. rewrite A. simpl. rewrite V. simpl.
    destruct claims as [m|]; simpl; [|reflexivity].
    destruct H as [H|H]; [now destruct (H m)|]. now rewrite H.
  - intros R. rewrite R in L.
    inversion L as [| | | |md' t' rest' tk m P' A' V' C B K| |]; subst.
    rewrite <- (same _ _ _ _ P' A' V'). eauto.
  - intros (m & C & B & K). destruct token as [claims valid]. simpl in C, B. subst.
    runCopy. rewrite P. unfold mdGet. rewrite A. simpl. rewrite V. simpl.
    unfold claimString.
    destruct (m !! "user_id") as [[s|n|b|]|] eqn:U; simpl; try reflexivity.
    now destruct (K s).
Qed.

Lemma copy_claims_errors_witness :
  returned (HandlerCopy.GetUserProfile
              (InMemory.serviceAnswering (Ok "t") (Ok InMemory.numericSubject))
              (InMemory.withToken "t") InMemory.noRequest) InMemory.world0
  = Return None (Some (errorString "user_id claim not found in token")).
Proof.
  destruct (copy_claims_errors
              (InMemory.serviceAnswering (Ok "t") (Ok InMemory.numericSubject))
              (InMemory.withToken "t") InMemory.noRequest InMemory.world0
              {[ "authorization" := ["t"] ]} "t" [] InMemory.numericSubject)
    as (_ & S); [reflexivity | reflexivity | reflexivity |].
  apply S. exists {[ "user_id" := ANumber 42 ]}.
  split; [reflexivity | split; [reflexivity|]].
  intros s. discriminate.
Defined.

(** X14. Like [auth.go], the copy never returns a response together with an
    error, nor neither: each of its [Login] and [GetUserProfile] returns a
    response with a nil error or a nil response with an error. *)
Theorem copy_no_partial_success (bcrypt : Bcrypt) (h : AuthHandler) (ctx : Context)
    (w : World) :
  (forall req, responseXorError (returned (HandlerCopy.Login bcrypt h ctx req) w))
  /\ (forall req, responseXorError (returned (HandlerCopy.GetUserProfile h ctx req) w)).
Proof.
  split; intros req.
  - destruct (Scan2 (QueryRow (db h) selectCredentials [Username req]))
      as [[userID hashed] [e|]] eqn:S.
    + rewrite (LoginCopy_lookup_failed bcrypt h ctx req w e) by now rewrite S.
      right. eauto.
    + destruct (HandlerCopy.checkPassword bcrypt hashed (Password req)) as [e|] eqn:C.
      * rewrite (LoginCopy_password_rejected bcrypt h ctx req w userID hashed S)
          by congruence.
        right. eauto.
      * rewrite (LoginCopy_generate bcrypt h ctx req w userID hashed S C).
        destruct (Generate (jwtManager h) (now w) userID); [left | right]; eauto.
  - pose proof (GetUserProfileCopy_run h ctx req w) as L.
    inversion L; [right.. | left]; eauto.
Qed.

(** ** From [Login] to [GetUserProfile] *)

(** X15. The two methods compose: when [Login] returned a token, the token
    manager later accepts that token with the subject it was generated for,
    and the users table maps the id of the credentials row back to the
    username, then [GetUserProfile] under that token returns the id of the
    row and the username of the login. *)
Theorem login_then_profile_compose (bcrypt : Bcrypt) (h : AuthHandler)
    (ctx ctx' : Context) (req : LoginRequest) (req' : GetUserProfileRequest)
    (w w' : World) (resp : LoginResponse) (md : gmap string (list string))
    (rest : list string) :
  returned (Handler.Login bcrypt h ctx req) w = Return (Some resp) None ->
  incomingMD ctx' = Some md ->
  md !! "authorization" = Some (AccessToken resp :: rest) ->
  (forall userID hashed,
     QueryRowContext (db h) ctx selectCredentials [Username req]
     = RowCols [userID; hashed] ->
     Generate (jwtManager h) (now w) userID = Ok (AccessToken resp) ->
     exists token, Verify (jwtManager h) (now w') (AccessToken resp) = Ok token
                   /\ carriesSubject token userID) ->
  (forall userID hashed,
     QueryRowContext (db h) ctx selectCredentials [Username req]
     = RowCols [userID; hashed] ->
     QueryRowContext (db h) ctx' selectUsername [userID] = RowCols [Username req]) ->
  exists userID hashed,
    QueryRowContext (db h) ctx selectCredentials [Username req] = RowCols [userID; hashed]
    /\ returned (Handler.GetUserProfile h ctx' req') w'
       = Return (Some {| UserId := userID; RespUsername := Username req |}) None.
Proof.
  intros R P A round back.
  pose proof (Login_run bcrypt h ctx req w) as L. rewrite R in L.
  inversion L as [| | |userID hashed token Q C G E]; subst. simpl in *.
  destruct (round userID hashed Q G) as (tk & V & S).
  exists userID, hashed. split; [exact Q|].
  assert (X : Handler.extractTokenFromMetadata ctx' = (token, None)).
  { unfold Handler.extractTokenFromMetadata, FromIncomingContext, mdGet.
    now rewrite P, A. }
  apply subjectOf_Some in S. unfold returned.
  now rewrite (GetUserProfile_lookup h ctx' req' w' token userID tk X V S),
    (back userID hashed Q).
Qed.

Lemma login_then_profile_compose_witness :
  exists userID hashed,
    QueryRowContext (db InMemory.service) Background selectCredentials ["alice"]
    = RowCols [userID; hashed]
    /\ returned (Handler.GetUserProfile InMemory.service
                   (InMemory.withToken InMemory.aliceToken) InMemory.noRequest)
         {| now := 5000; trace := [] |}
       = Return (Some {| UserId := userID; RespUsername := "alice" |}) None.
Proof.
  apply (login_then_profile_compose InMemory.clearBcrypt InMemory.service Background
           (InMemory.withToken InMemory.aliceToken)
           {| Username := "alice"; Password := "correct-pw" |} InMemory.noRequest
           InMemory.world0 {| now := 5000; trace := [] |}
           {| AccessToken := InMemory.aliceToken |}
           {[ "authorization" := [InMemory.aliceToken] ]} []).
  - vm_compute. reflexivity.
  - reflexivity.
  - reflexivity.
  - intros userID hashed Q G. injection Q as <- <-.
    exists {| Claims := MapClaims (TokenManager.toMapClaims
                                     {| TokenManager.subject_id := "u-1";
                                        TokenManager.issued_at := 1000;
                                        TokenManager.expires_at := 87400 |});
              Valid := true |}.
    split; [vm_compute; reflexivity|].
    eexists. split; [reflexivity | split; [reflexivity | vm_compute; reflexivity]].
  - intros userID hashed Q. injection Q as <- <-. reflexivity.
Defined.
